(** * mcpwire: configuration resolution and session lifecycle of [MCPClient]

    A shallow embedding of [src/mcp_client/client.py].

    - Python values are the inductive [pyval]; a [dict] with string keys (every
      JSON object, every keyword-argument dictionary) is a [gmap string pyval].
      Numbers are integers; strings are byte strings, so [str.lower] acts on
      the ASCII letters.
    - What the code reads from outside (environment variables, the file
      system, the JSON parser) is a [world]; what it calls to open transports
      and sessions is a [collaborators] record.  Both are passed explicitly.
    - Effects are a trace of [event]s next to a result: [M A] for the
      configuration phase, and trace * object * result for the methods that
      mutate the client ([_initialize], [close]), because a Python method
      that raises keeps the assignments it made before raising.
    - Of the logging calls, the warning-level records are kept in the trace;
      info and debug records are left out. *)

From Stdlib Require Import ZArith String Ascii List Lia DecimalString.
From stdpp Require Import base option gmap strings list fin_maps.

Set Warnings "-register-all".

(** ** Python values *)

Inductive pyval :=
| PNone
| PBool (b : bool)
| PInt (n : Z)
| PStr (s : string)
| PList (l : list pyval)
| PDict (d : gmap string pyval).

(** [bool(v)]: None, False, 0, the empty string, list and dict are falsy. *)
Definition truthy (v : pyval) : bool :=
  match v with
  | PNone => false
  | PBool b => b
  | PInt n => negb (n =? 0)%Z
  | PStr s => match s with EmptyString => false | String _ _ => true end
  | PList l => match l with [] => false | _ :: _ => true end
  | PDict d => match map_to_list d with [] => false | _ :: _ => true end
  end.

(** [a or b] *)
Definition py_or (a b : pyval) : pyval := if truthy a then a else b.

(** [v is None] *)
Definition is_none (v : pyval) : bool :=
  match v with PNone => true | _ => false end.

(** [isinstance(v, str)], [isinstance(v, list)], [isinstance(v, dict)] *)
Definition isinstance_str (v : pyval) : bool :=
  match v with PStr _ => true | _ => false end.
Definition isinstance_list (v : pyval) : bool :=
  match v with PList _ => true | _ => false end.
Definition isinstance_dict (v : pyval) : bool :=
  match v with PDict _ => true | _ => false end.

(** [v == s] for a string literal [s] *)
Definition py_eq_str (v : pyval) (s : string) : bool :=
  match v with PStr t => bool_decide (t = s) | _ => false end.

(** [type(v).__name__] *)
Definition type_name (v : pyval) : string :=
  match v with
  | PNone => "NoneType"
  | PBool _ => "bool"
  | PInt _ => "int"
  | PStr _ => "str"
  | PList _ => "list"
  | PDict _ => "dict"
  end.

(** [str(v)] as an f-string renders it, for strings and the hashable
    scalars.  A list or a dict is rendered through [repr], which is not
    modelled: the empty string stands for it.  In [from_config] such a value
    never reaches a message (it is unhashable and [dict.get] raises first). *)
Definition py_str (v : pyval) : string :=
  match v with
  | PNone => "None"
  | PBool true => "True"
  | PBool false => "False"
  | PInt n => NilZero.string_of_int (Z.to_int n)
  | PStr s => s
  | PList _ | PDict _ => ""
  end.

(** ** Strings *)

(** One character of [str.lower] *)
Definition lower_ascii (c : ascii) : ascii :=
  let n := nat_of_ascii c in
  if (65 <=? n)%nat && (n <=? 90)%nat then ascii_of_nat (n + 32) else c.

(** [s.lower()] *)
Fixpoint lower (s : string) : string :=
  match s with
  | EmptyString => EmptyString
  | String c r => String (lower_ascii c) (lower r)
  end.

(** [s.rstrip(c)] for a one-character argument: the trailing run of [c] is
    dropped. *)
Fixpoint rstrip (c : ascii) (s : string) : string :=
  match s with
  | EmptyString => EmptyString
  | String a r =>
      match rstrip c r with
      | EmptyString => if Ascii.eqb a c then EmptyString else String a EmptyString
      | r' => String a r'
      end
  end.

(** [s.startswith(p)] *)
Definition startswith (p s : string) : bool := String.prefix p s.

(** [s.split(sep, 1)[1]] for a one-character separator: what follows the
    first [sep]; [None] stands for the IndexError of a string without it. *)
Fixpoint split1_snd (sep : ascii) (s : string) : option string :=
  match s with
  | EmptyString => None
  | String a r => if Ascii.eqb a sep then Some r else split1_snd sep r
  end.

(** [p in s] on strings: [p] occurs in [s] as a substring. *)
Fixpoint str_contains (p s : string) : bool :=
  String.prefix p s ||
  match s with
  | EmptyString => false
  | String _ r => str_contains p r
  end.

(** [c * n] and the last character of a string *)
Fixpoint str_repeat (c : ascii) (n : nat) : string :=
  match n with
  | O => EmptyString
  | S k => String c (str_repeat c k)
  end.

Fixpoint ends_with (c : ascii) (s : string) : bool :=
  match s with
  | EmptyString => false
  | String a EmptyString => Ascii.eqb a c
  | String _ r => ends_with c r
  end.

(** ** Exceptions, events and the effect monad *)

Inductive exn_class :=
| FileNotFoundError
| MCPDataError
| OSError
| MCPError
| MCPConnectionError
| ValueError
| KeyError
| AttributeError
| TypeError
| IndexError
| ForeignError     (* whatever a transport factory or a session raises *)
| NotModelled.     (* an argument shape this embedding does not cover *)

(** A raised exception: its class and its message.  The interpreter's own
    messages (AttributeError, TypeError, IndexError) are left empty. *)
Record exn := Raise { exn_class_of : exn_class; exn_msg : string }.

Inductive result (A : Type) :=
| Ok (a : A)
| Err (e : exn).
Arguments Ok {A} a.
Arguments Err {A} e.

(** What a session or a transport is opened on, as the exit stack holds it. *)
Inductive resource :=
| StdioTransport (command args : pyval) (env : gmap string string)
| SseTransport (url : pyval) (headers : gmap string pyval)
               (timeout sse_read_timeout : Z)
| Session (over : resource).

Inductive event :=
| LogWarning (msg : string)          (* logger.warning(msg) *)
| FsCwd                              (* Path.cwd() *)
| FsHome                             (* Path.home() *)
| FsResolve (p : string)             (* Path(p).resolve() *)
| FsIsFile (p : string)              (* path.is_file() *)
| FsLoad (p : string)                (* open(path) and json.load *)
| Open (r : resource)                (* __aenter__ of a transport or session *)
| Handshake (r : resource)           (* session.initialize() *)
| Release (r : resource).            (* __aexit__ of a transport or session *)

Definition trace := list event.

(** A computation that may log, consult the file system and raise. *)
Definition M (A : Type) : Type := trace * result A.

Definition ret {A} (a : A) : M A := ([], Ok a).
Definition raise {A} (c : exn_class) (msg : string) : M A := ([], Err (Raise c msg)).
Definition emit (e : event) : M unit := ([e], Ok tt).
Definition bind {A B} (m : M A) (k : A -> M B) : M B :=
  match m with
  | (t, Ok a) => let '(t', r) := k a in (t ++ t', r)
  | (t, Err e) => (t, Err e)
  end.

Notation "'do' x <- m ; k" := (bind m (fun x => k))
  (at level 10, x name, m at level 100, k at level 200).
Notation "m ;; k" := (bind m (fun _ => k))
  (at level 100, k at level 200, right associativity).

(** ** The outside world *)

(** Outcome of [open(path)] followed by [json.load(f)]; the strings are
    [str(e)] of the exception caught at lines 203-208. *)
Inductive load_outcome :=
| Loaded (config_data : pyval)
| JSONDecodeError (e : string)
| LoadOSError (e : string)
| LoadOtherError (e : string).

Record world := {
  environ : string -> option string;   (* os.environ *)
  cwd : string;                        (* str(Path.cwd()) *)
  home : option string;                (* str(Path.home()); None: RuntimeError *)
  resolve : string -> string;          (* str(Path(p).resolve()) *)
  is_file : string -> option bool;     (* path.is_file(); None: OSError *)
  load : string -> load_outcome        (* open + json.load *)
}.

(** [str(d / name)] for an absolute directory [d] as pathlib prints it: only
    the root ends in a separator. *)
Definition joinpath (d name : string) : string :=
  if ends_with "/" d then d +:+ name else d +:+ "/" +:+ name.

(** ** Module constants (lines 36-41) *)

Definition DEFAULT_TIMEOUT : Z := 60.
Definition DEFAULT_CONFIG_FILENAME : string := "mcp.json".
Definition DEFAULT_HTTP_TIMEOUT : Z := 5.
Definition DEFAULT_SSE_READ_TIMEOUT : Z := 60 * 5.

(** ** The client object *)

Record MCPClient := {
  transport : pyval;
  command : pyval;
  args : pyval;
  base_url : pyval;
  timeout : pyval;
  default_parameters : gmap string pyval;
  headers : gmap string pyval;
  _mcp_client : option resource;
  _exit_stack : option (list resource)   (* most recently entered first *)
}.

(** [d.update(other)].  A mapping overrides key by key.  A number, a bool or
    None is not iterable (TypeError); a non-empty string is iterated into
    one-character items (ValueError).  A list is accepted by Python when it
    is a sequence of pairs, which may introduce keys that are not strings:
    that shape is not covered. *)
Definition dict_update (d : gmap string pyval) (other : pyval)
  : M (gmap string pyval) :=
  match other with
  | PDict o => ret (o ∪ d)
  | PStr EmptyString => ret d
  | PStr _ => raise ValueError ""
  | PList [] => ret d
  | PList _ => raise NotModelled "dict.update with a sequence"
  | PNone | PBool _ | PInt _ => raise TypeError ""
  end.

(** [if other: d.update(other)] *)
Definition update_if_truthy (d : gmap string pyval) (other : pyval)
  : M (gmap string pyval) :=
  if truthy other then dict_update d other else ret d.

(** Lines 113-124: the secret an [api_key] argument stands for. *)
Definition resolve_api_key (w : world) (api_key : pyval) : M pyval :=
  match api_key with
  | PStr k =>
      if startswith "env:" k then
        match split1_snd ":" k with
        | None => raise IndexError ""
        | Some env_var_name =>
            let resolved_api_key :=
              match environ w env_var_name with
              | Some s => PStr s
              | None => PNone
              end in
            if truthy resolved_api_key then ret resolved_api_key
            else
              emit (LogWarning ("API key environment variable '" +:+ env_var_name
                                +:+ "' specified but not found.")) ;;
              ret resolved_api_key
        end
      else ret api_key
  | _ => ret PNone
  end.

(** [base_url.rstrip('/') if base_url else None] (line 103) *)
Definition strip_base_url (base_url : pyval) : M pyval :=
  if truthy base_url then
    match base_url with
    | PStr s => ret (PStr (rstrip "/" s))
    | _ => raise AttributeError ""
    end
  else ret PNone.

(** [MCPClient.__init__] (lines 87-141) *)
Definition __init__ (w : world)
    (base_url timeout api_key default_headers default_parameters
     _config_default_headers _config_default_parameters
     transport command args : pyval) : M MCPClient :=
  do self_base_url <- strip_base_url base_url;
  do params <- update_if_truthy ∅ _config_default_parameters;
  do params <- update_if_truthy params default_parameters;
  do resolved_api_key <- resolve_api_key w api_key;
  do hdrs <- update_if_truthy ∅ _config_default_headers;
  do hdrs <- update_if_truthy hdrs default_headers;
  let hdrs :=
    if truthy resolved_api_key
    then <["Authorization" := PStr ("Bearer " +:+ py_str resolved_api_key)]> hdrs
    else hdrs in
  ret {| transport := transport;
         command := command;
         args := py_or args (PList []);
         base_url := self_base_url;
         timeout := timeout;
         default_parameters := params;
         headers := hdrs;
         _mcp_client := None;
         _exit_stack := None |}.

(** ** Locating and reading the configuration file *)

(** The loop of lines 158-165: the first candidate that is a regular file. *)
Fixpoint first_file (w : world) (potential_paths : list string)
  : M (option string) :=
  match potential_paths with
  | [] => ret None
  | path :: rest =>
      emit (FsIsFile path) ;;
      match is_file w path with
      | Some true => ret (Some path)
      | Some false | None => first_file w rest
      end
  end.

(** [if config_path:] on an [Optional[str]] *)
Definition given (config_path : option string) : option string :=
  match config_path with
  | Some (String a r) => Some (String a r)
  | Some EmptyString | None => None
  end.

(** Lines 146-156: the candidates, in the order they are tried. *)
Definition potential_paths (w : world) (config_path : option string)
  : M (list string) :=
  match given config_path with
  | Some p => emit (FsResolve p) ;; ret [resolve w p]
  | None =>
      emit FsCwd ;;
      let in_cwd := joinpath (cwd w) DEFAULT_CONFIG_FILENAME in
      emit FsHome ;;
      match home w with
      | Some home_dir =>
          ret [in_cwd;
               joinpath home_dir ("." +:+ DEFAULT_CONFIG_FILENAME);
               joinpath (joinpath (joinpath home_dir ".config") "mcp")
                        DEFAULT_CONFIG_FILENAME]
      | None =>
          emit (LogWarning "Could not determine home directory for config search.") ;;
          ret [in_cwd]
      end
  end.

(** [MCPClient._find_config_file] (lines 143-168) *)
Definition _find_config_file (w : world) (config_path : option string)
  : M (option string) :=
  do paths <- potential_paths w config_path;
  first_file w paths.

(** Lines 200-208 *)
Definition load_config (w : world) (found_config_path : string) : M pyval :=
  emit (FsLoad found_config_path) ;;
  match load w found_config_path with
  | Loaded config_data => ret config_data
  | JSONDecodeError e =>
      raise MCPDataError ("Invalid JSON in configuration file '"
                          +:+ found_config_path +:+ "': " +:+ e)
  | LoadOSError e =>
      raise OSError ("Could not read configuration file '"
                     +:+ found_config_path +:+ "': " +:+ e)
  | LoadOtherError e =>
      raise MCPError ("Unexpected error loading config file '"
                      +:+ found_config_path +:+ "': " +:+ e)
  end.

(** ** Dictionary access on untyped values *)

(** [v.get(key, dflt)]: only a dict has [get]. *)
Definition py_get (v : pyval) (key : string) (dflt : pyval) : M pyval :=
  match v with
  | PDict d => ret (default dflt (d !! key))
  | _ => raise AttributeError ""
  end.

(** [key in v] for a string [key]: a key of a dict, an element of a list, a
    substring of a string; anything else is not a container. *)
Definition py_in (key : string) (v : pyval) : M bool :=
  match v with
  | PDict d => ret (match d !! key with Some _ => true | None => false end)
  | PList l => ret (existsb (fun x => py_eq_str x key) l)
  | PStr s => ret (str_contains key s)
  | PNone | PBool _ | PInt _ => raise TypeError ""
  end.

(** [d.get(key)] for an untyped [key]: a list or a dict is unhashable; a
    hashable key that is not a string is in no JSON object. *)
Definition dict_get (d : gmap string pyval) (key : pyval) : M pyval :=
  match key with
  | PStr s => ret (default PNone (d !! s))
  | PList _ | PDict _ => raise TypeError ""
  | PNone | PBool _ | PInt _ => ret PNone
  end.

(** [kwargs.get(key, dflt)] *)
Definition kwargs_get (kwargs : gmap string pyval) (key : string) (dflt : pyval)
  : pyval :=
  default dflt (kwargs !! key).

(** ** [from_config] *)

(** Lines 210-219: the alias of the server to load. *)
Definition target_server (found_config_path : string)
    (server_name : option string) (config_data : pyval) : M pyval :=
  match given server_name with
  | Some name => ret (PStr name)
  | None =>
      do target_server_name <- py_get config_data "default_server" PNone;
      if truthy target_server_name then ret target_server_name
      else
        do servers <- py_get config_data "servers" (PDict ∅);
        do has_default <- py_in "default" servers;
        if has_default then ret (PStr "default")
        else raise ValueError
               ("No server_name specified and no 'default_server' key or 'default' server found in '"
                +:+ found_config_path +:+ "'.")
  end.

(** Lines 221-229: the entry of that server. *)
Definition server_entry (found_config_path : string)
    (target_server_name : pyval) (config_data : pyval)
  : M (gmap string pyval) :=
  do servers_dict <- py_get config_data "servers" PNone;
  match servers_dict with
  | PDict servers =>
      do server_config <- dict_get servers target_server_name;
      match server_config with
      | PDict entry => ret entry
      | _ =>
          raise KeyError ("Server configuration '" +:+ py_str target_server_name
                          +:+ "' not found or is not a valid dictionary in '"
                          +:+ found_config_path +:+ "'.")
      end
  | _ =>
      raise MCPDataError ("Missing or invalid 'servers' dictionary in '"
                          +:+ found_config_path +:+ "'.")
  end.

(** [server_config.get("transport", "http").lower()] (line 233) *)
Definition transport_of (server_config : gmap string pyval) : M string :=
  match default (PStr "http") (server_config !! "transport") with
  | PStr s => ret (lower s)
  | _ => raise AttributeError ""
  end.

(** Lines 237-249: the fields the transport requires; the result is the
    [base_url] to go on with. *)
Definition check_transport (target_server_name : pyval) (transport : string)
    (base_url command args : pyval) : M pyval :=
  if bool_decide (transport = "stdio") then
    if negb (truthy command) then
      raise MCPDataError ("Missing 'command' for stdio transport in server '"
                          +:+ py_str target_server_name +:+ "'.")
    else if negb (isinstance_str command) then
      raise MCPDataError ("Invalid 'command' format for stdio transport in server '"
                          +:+ py_str target_server_name +:+ "'. Expected a string.")
    else if negb (is_none args) && negb (isinstance_list args) then
      raise MCPDataError ("Invalid 'args' format for stdio transport in server '"
                          +:+ py_str target_server_name +:+ "'. Expected a list.")
    else ret PNone
  else if bool_decide (transport = "http") || bool_decide (transport = "sse") then
    if negb (truthy base_url) || negb (isinstance_str base_url) then
      raise MCPDataError ("Missing or invalid 'base_url' (string) for server '"
                          +:+ py_str target_server_name +:+ "' with transport '"
                          +:+ transport +:+ "'.")
    else ret base_url
  else
    raise ValueError ("Unsupported transport protocol '" +:+ transport
                      +:+ "' for server '" +:+ py_str target_server_name +:+ "'.").

(** Lines 258-263: a [default_headers] or [default_parameters] of the file
    that is not a dictionary is reported and dropped. *)
Definition dict_or_ignore (field : string) (target_server_name : pyval)
    (v : pyval) : M pyval :=
  if negb (is_none v) && negb (isinstance_dict v) then
    emit (LogWarning ("Invalid '" +:+ field +:+ "' format for server '"
                      +:+ py_str target_server_name
                      +:+ "'. Expected a dictionary, got <class '"
                      +:+ type_name v +:+ "'>. Ignoring.")) ;;
    ret PNone
  else ret v.

(** Lines 266-277 *)
Definition init_kwargs (kwargs : gmap string pyval)
    (base_url timeout_from_conf api_key_from_conf
     config_default_headers config_default_parameters : pyval)
    (transport : string) (command args : pyval) : gmap string pyval :=
  <["base_url" := kwargs_get kwargs "base_url" base_url]>
  (<["timeout" := py_or (kwargs_get kwargs "timeout" timeout_from_conf)
                        (PInt DEFAULT_TIMEOUT)]>
  (<["api_key" := kwargs_get kwargs "api_key" api_key_from_conf]>
  (<["_config_default_headers" := config_default_headers]>
  (<["_config_default_parameters" := config_default_parameters]>
  (<["default_headers" := kwargs_get kwargs "default_headers" PNone]>
  (<["default_parameters" := kwargs_get kwargs "default_parameters" PNone]>
  (<["transport" := kwargs_get kwargs "transport" (PStr transport)]>
  (<["command" := kwargs_get kwargs "command" command]>
  (<["args" := kwargs_get kwargs "args" args]> ∅))))))))).

(** The test of lines 282-285 on one item of [init_kwargs]. *)
Definition kept (init_kwargs : gmap string pyval) (k : string) (v : pyval)
  : bool :=
  negb (is_none v)
  || bool_decide (k = "timeout")
  || (py_eq_str (kwargs_get init_kwargs "transport" PNone) "http"
      && bool_decide (k = "base_url"))
  || (py_eq_str (kwargs_get init_kwargs "transport" PNone) "stdio"
      && bool_decide (k = "command")).

(** Lines 280-285 *)
Definition filtered_kwargs (init_kwargs : gmap string pyval)
  : gmap string pyval :=
  filter (fun kv => kept init_kwargs kv.1 kv.2 = true) init_kwargs.

(** The call of [cls] with the keywords [kw] (line 288): a keyword that is
    not passed takes the default of the signature (lines 87-99). *)
Definition construct (w : world) (kw : gmap string pyval) : M MCPClient :=
  __init__ w
    (kwargs_get kw "base_url" PNone)
    (kwargs_get kw "timeout" (PInt DEFAULT_TIMEOUT))
    (kwargs_get kw "api_key" PNone)
    (kwargs_get kw "default_headers" PNone)
    (kwargs_get kw "default_parameters" PNone)
    (kwargs_get kw "_config_default_headers" PNone)
    (kwargs_get kw "_config_default_parameters" PNone)
    (kwargs_get kw "transport" (PStr "http"))
    (kwargs_get kw "command" PNone)
    (kwargs_get kw "args" PNone).

(** Lines 231-288: from the entry of the server to the client. *)
Definition client_of_entry (w : world) (target_server_name : pyval)
    (server_config : gmap string pyval) (kwargs : gmap string pyval)
  : M MCPClient :=
  let base_url := default PNone (server_config !! "base_url") in
  do transport <- transport_of server_config;
  let command := default PNone (server_config !! "command") in
  let args := default PNone (server_config !! "args") in
  do base_url <- check_transport target_server_name transport base_url command args;
  let api_key_from_conf := default PNone (server_config !! "api_key") in
  let timeout_from_conf := default PNone (server_config !! "timeout") in
  do config_default_headers <-
    dict_or_ignore "default_headers" target_server_name
                   (default PNone (server_config !! "default_headers"));
  do config_default_parameters <-
    dict_or_ignore "default_parameters" target_server_name
                   (default PNone (server_config !! "default_parameters"));
  construct w
    (filtered_kwargs
       (init_kwargs kwargs base_url timeout_from_conf api_key_from_conf
                    config_default_headers config_default_parameters
                    transport command args)).

(** [MCPClient.from_config] (lines 170-288) *)
Definition from_config (w : world) (server_name config_path : option string)
    (kwargs : gmap string pyval) : M MCPClient :=
  do found <- _find_config_file w config_path;
  match found with
  | None =>
      raise FileNotFoundError
        ("MCP configuration file not found at '"
         +:+ match config_path with Some p => p | None => "None" end
         +:+ "' or in standard locations.")
  | Some found_config_path =>
      do config_data <- load_config w found_config_path;
      do target_server_name <- target_server found_config_path server_name config_data;
      do server_config <- server_entry found_config_path target_server_name config_data;
      client_of_entry w target_server_name server_config kwargs
  end.

(** ** Session lifecycle *)

(** What the [__aexit__] of a context does with the exception that is
    pending when it is called ([None]: there is none): it raises, or it
    returns, and a true return value suppresses the pending exception. *)
Inductive exit_result :=
| Raises (e : exn)
| Returns (suppress : bool).

Definition returns (r : exit_result) : bool :=
  match r with Returns _ => true | Raises _ => false end.

(** The transport factories, the protocol session and the context managers
    they return.  For [enter] and [initialize], [None] is a call that returns
    and [Some e] the exception it raises.  [enter (StdioTransport ..)] is
    building the server parameters and entering [stdio_client],
    [enter (SseTransport ..)] is entering [sse_client], [enter (Session r)]
    is entering [ClientSession(read, write)] on the streams of [r];
    [exit r pending] is the [__aexit__] of that context. *)
Record collaborators := {
  enter : resource -> option exn;
  initialize : resource -> option exn;    (* session.initialize() *)
  exit : resource -> option exn -> exit_result
}.

(** An attribute assignment leaves the other attributes as they are. *)
Definition set_exit_stack (st : option (list resource)) (self : MCPClient)
  : MCPClient :=
  {| transport := transport self; command := command self; args := args self;
     base_url := base_url self; timeout := timeout self;
     default_parameters := default_parameters self; headers := headers self;
     _mcp_client := _mcp_client self;
     _exit_stack := st |}.

Definition set_mcp_client (s : option resource) (self : MCPClient) : MCPClient :=
  {| transport := transport self; command := command self; args := args self;
     base_url := base_url self; timeout := timeout self;
     default_parameters := default_parameters self; headers := headers self;
     _mcp_client := s;
     _exit_stack := _exit_stack self |}.

(** A method that mutates the client: the trace, the object as the call
    leaves it (also when it raises), and the outcome. *)
Definition method : Type := trace * MCPClient * result unit.

(** [self._exit_stack.enter_async_context(cm)]: the context is pushed on the
    stack only when entering it returns. *)
Definition push (r : resource) (self : MCPClient) : MCPClient :=
  set_exit_stack (Some (r :: default [] (_exit_stack self))) self.

(** Lines 309-315 and 322-330: enter the transport, enter a session on its
    streams, perform the handshake, keep the session. *)
Definition open_session (co : collaborators) (tr : resource) (self : MCPClient)
  : method :=
  match enter co tr with
  | Some e => ([Open tr], self, Err e)
  | None =>
      let self := push tr self in
      match enter co (Session tr) with
      | Some e => ([Open tr; Open (Session tr)], self, Err e)
      | None =>
          let self := push (Session tr) self in
          match initialize co (Session tr) with
          | Some e =>
              ([Open tr; Open (Session tr); Handshake (Session tr)], self, Err e)
          | None =>
              ([Open tr; Open (Session tr); Handshake (Session tr)],
               set_mcp_client (Some (Session tr)) self, Ok tt)
          end
      end
  end.

(** [MCPClient._initialize] (lines 290-336) *)
Definition _initialize (co : collaborators) (w : world) (self : MCPClient)
  : method :=
  match _exit_stack self with
  | Some _ => ([], self, Ok tt)
  | None =>
      let self := set_exit_stack (Some []) self in
      if py_eq_str (transport self) "stdio" then
        let env : gmap string string :=
          <["PATH" := default EmptyString (environ w "PATH")]> ∅ in
        open_session co (StdioTransport (command self) (args self) env) self
      else if py_eq_str (transport self) "sse" then
        if negb (truthy (base_url self)) then
          ([], self,
           Err (Raise MCPConnectionError "Base URL is required for SSE transport"))
        else
          open_session co
            (SseTransport (base_url self) (headers self)
                          DEFAULT_HTTP_TIMEOUT DEFAULT_SSE_READ_TIMEOUT) self
      else if py_eq_str (transport self) "http" then
        ([], self,
         Err (Raise ValueError
                "HTTP transport is not supported by the official MCP library. Use 'sse' instead."))
      else
        ([], self,
         Err (Raise ValueError
                ("Unsupported transport protocol: " +:+ py_str (transport self))))
  end.

(** The loop of [AsyncExitStack.__aexit__]: every context is exited, the
    most recently entered first, and is handed the exception pending at that
    point.  An exit that raises replaces the pending exception, an exit that
    returns true clears it, an exit that returns false leaves it.  What is
    pending at the end is raised. *)
Fixpoint unwind (co : collaborators) (pending : option exn)
    (stack : list resource) : trace * option exn :=
  match stack with
  | [] => ([], pending)
  | r :: rest =>
      let pending' :=
        match exit co r pending with
        | Raises e => Some e
        | Returns true => None
        | Returns false => pending
        end in
      let '(t, final) := unwind co pending' rest in
      (Release r :: t, final)
  end.

(** [AsyncExitStack.aclose()]: the unwinding starts with nothing pending. *)
Definition aclose (co : collaborators) (stack : list resource)
  : trace * option exn :=
  unwind co None stack.

(** [MCPClient.close] (lines 367-372).  When [aclose] raises, the two
    assignments after it are not reached and the stack object stays, with
    its contexts popped. *)
Definition close (co : collaborators) (self : MCPClient) : method :=
  match _exit_stack self with
  | Some stack =>
      match aclose co stack with
      | (t, Some e) => (t, set_exit_stack (Some []) self, Err e)
      | (t, None) => (t, set_mcp_client None (set_exit_stack None self), Ok tt)
      end
  | None => ([], self, Ok tt)
  end.

(** [n] calls of [_initialize] one after the other, each on the object the
    previous one left: the traces joined, the last object, whether every
    call returned. *)
Fixpoint initialize_again (co : collaborators) (w : world) (n : nat)
    (self : MCPClient) : trace * MCPClient * bool :=
  match n with
  | O => ([], self, true)
  | S k =>
      let '(t, self', r) := _initialize co w self in
      let '(t', self'', ok) := initialize_again co w k self' in
      (t ++ t', self'', match r with Ok _ => ok | Err _ => false end)
  end.

(** ** Failure conditions

    The conditions the specification names, as sets of the exception classes
    the code raises for them. *)

(** No resolvable server alias (ValueError, line 218) or alias not among the
    servers (KeyError, line 228). *)
Definition configuration_missing (c : exn_class) : bool :=
  match c with ValueError | KeyError => true | _ => false end.

(** Invalid JSON or a field of the wrong shape (MCPDataError). *)
Definition data_format (c : exn_class) : bool :=
  match c with MCPDataError => true | _ => false end.

(** [e] occurs in the trace: an attempt was made on a transport or session. *)
Definition touches_resource (e : event) : bool :=
  match e with
  | Open _ | Handshake _ | Release _ => true
  | _ => false
  end.

(** ** Sample inputs *)

(** A machine with [FOO=secret123] in the environment, one configuration
    file at [/etc/mcp/mcp.json], and nothing at the standard locations. *)
Definition sample_entry : gmap string pyval :=
  <["transport" := PStr "sse"]> (<["base_url" := PStr "http://localhost:8000"]> ∅).

Definition sample_config : pyval :=
  PDict (<["servers" := PDict (<["default" := PDict sample_entry]> ∅)]> ∅).

Definition sample_world : world :=
  {| environ := fun name =>
       if bool_decide (name = "FOO") then Some "secret123" else None;
     cwd := "/srv/app";
     home := Some "/home/user";
     resolve := fun p => if startswith "/" p then p else "/srv/app/" +:+ p;
     is_file := fun p => Some (bool_decide (p = "/etc/mcp/mcp.json"));
     load := fun _ => Loaded sample_config |}.

(** The same machine with another content of the configuration file. *)
Definition world_with (outcome : load_outcome) : world :=
  {| environ := environ sample_world;
     cwd := cwd sample_world;
     home := home sample_world;
     resolve := resolve sample_world;
     is_file := is_file sample_world;
     load := fun _ => outcome |}.

(** Collaborators whose calls all return. *)
Definition obliging : collaborators :=
  {| enter := fun _ => None; initialize := fun _ => None;
     exit := fun _ _ => Returns false |}.

(** A client as [MCPClient(base_url, transport=transport)] builds it. *)
Definition fresh_client (transport base_url : pyval) : MCPClient :=
  {| transport := transport; command := PNone; args := PList [];
     base_url := base_url; timeout := PInt DEFAULT_TIMEOUT;
     default_parameters := ∅; headers := ∅;
     _mcp_client := None; _exit_stack := None |}.

(** The mapping an [Optional[Mapping]] argument contributes. *)
Definition dict_of (v : pyval) : gmap string pyval :=
  match v with PDict d => d | _ => ∅ end.

(** Arguments of the shape the signature of [__init__] announces. *)
Definition optional_str (v : pyval) : bool :=
  match v with PNone | PStr _ => true | _ => false end.
Definition optional_mapping (v : pyval) : bool :=
  match v with PNone | PDict _ => true | _ => false end.

(** A client built from a file entry with a stale Authorization header, a
    caller header and a literal api_key. *)
Definition stale_headers : pyval :=
  PDict (<["Authorization" := PStr "Basic stale"]> (<["X-Env" := PStr "file"]> ∅)).
Definition caller_headers : pyval :=
  PDict (<["X-Env" := PStr "caller"]> ∅).
Definition sample_headers_client : MCPClient :=
  {| transport := PStr "sse"; command := PNone; args := PList [];
     base_url := PStr "http://localhost:8000"; timeout := PInt DEFAULT_TIMEOUT;
     default_parameters := ∅;
     headers := <["Authorization" := PStr "Bearer k1"]>
                  (dict_of caller_headers ∪ dict_of stale_headers);
     _mcp_client := None; _exit_stack := None |}.

(** [m] run after the trace [t]. *)
Definition after {A} (t : trace) (m : M A) : M A := (t ++ fst m, snd m).

(** The transport label [cls] receives: an override that is None is dropped
    by the filter of lines 280-285, and the default of the signature, "http",
    takes its place. *)
Definition passed_transport (kwargs : gmap string pyval) (transport : string)
  : pyval :=
  let v := kwargs_get kwargs "transport" (PStr transport) in
  if is_none v then PStr "http" else v.

(** A file that names a default server and has no "servers" map; a file
    whose "servers" is [null]; a file whose only server uses "sse" and gives
    no base_url. *)
Definition no_servers_config : pyval :=
  PDict (<["default_server" := PStr "main"]> ∅).
Definition null_servers_config : pyval :=
  PDict (<["servers" := PNone]> ∅).
Definition sse_without_url_config : pyval :=
  PDict (<["servers" :=
             PDict (<["default" := PDict (<["transport" := PStr "sse"]> ∅)]> ∅)]> ∅).

(** The client of [sample_config] when the caller overrides the timeout. *)
Definition sample_client (timeout : pyval) : MCPClient :=
  {| transport := PStr "sse"; command := PNone; args := PList [];
     base_url := PStr "http://localhost:8000"; timeout := timeout;
     default_parameters := ∅; headers := ∅;
     _mcp_client := None; _exit_stack := None |}.

(** The trace of locating and reading [/etc/mcp/mcp.json] by explicit path. *)
Definition sample_trace : trace :=
  [FsResolve "/etc/mcp/mcp.json"; FsIsFile "/etc/mcp/mcp.json";
   FsLoad "/etc/mcp/mcp.json"].

(** ** Operations forwarded to the session, and the async context manager *)

(** The adapter functions and the session method the operations forward to:
    [load_mcp_tools(session)], [load_mcp_prompt(session, name, arguments)] and
    [session.call_tool(name, arguments)].  The adapters receive whatever
    [self._mcp_client] holds, None included. *)
Record adapters := {
  load_mcp_tools : option resource -> result pyval;
  load_mcp_prompt : option resource -> string -> pyval -> result pyval;
  session_call_tool : resource -> string -> pyval -> result pyval
}.

(** An operation: the trace of the initialization it triggered, the client
    as the call leaves it, and what the call returns or raises. *)
Definition operation : Type := trace * MCPClient * result pyval.

(** [MCPClient.list_tools] (lines 338-341) *)
Definition list_tools (co : collaborators) (ad : adapters) (w : world)
    (self : MCPClient) : operation :=
  match _initialize co w self with
  | (t, self, Ok _) => (t, self, load_mcp_tools ad (_mcp_client self))
  | (t, self, Err e) => (t, self, Err e)
  end.

(** [MCPClient.get_prompt] (lines 343-346) *)
Definition get_prompt (co : collaborators) (ad : adapters) (w : world)
    (self : MCPClient) (prompt_name : string) (arguments : pyval) : operation :=
  match _initialize co w self with
  | (t, self, Ok _) =>
      (t, self, load_mcp_prompt ad (_mcp_client self) prompt_name arguments)
  | (t, self, Err e) => (t, self, Err e)
  end.

(** [MCPClient.call_tool] (lines 348-351): [self._mcp_client.call_tool] on
    None is an AttributeError. *)
Definition call_tool (co : collaborators) (ad : adapters) (w : world)
    (self : MCPClient) (tool_name : string) (arguments : pyval) : operation :=
  match _initialize co w self with
  | (t, self, Ok _) =>
      match _mcp_client self with
      | Some session => (t, self, session_call_tool ad session tool_name arguments)
      | None => (t, self, Err (Raise AttributeError EmptyString))
      end
  | (t, self, Err e) => (t, self, Err e)
  end.

(** [MCPClient.__aenter__] (lines 374-377); the object returned is [self]. *)
Definition __aenter__ (co : collaborators) (w : world) (self : MCPClient)
  : method :=
  _initialize co w self.

(** [MCPClient.__aexit__] (lines 379-386); the exception triple is not used. *)
Definition __aexit__ (co : collaborators) (self : MCPClient) : method :=
  close co self.

(** The resources a trace attempts to open, in order, and whether entering
    one returns. *)
Definition opens (t : trace) : list resource :=
  flat_map (fun e => match e with Open r => [r] | _ => [] end) t.

Definition entered (co : collaborators) (r : resource) : bool :=
  match enter co r with None => true | Some _ => false end.

(** A trace that attempts nothing on a transport or session. *)
Definition quiet (t : trace) : Prop :=
  Forall (fun e => touches_resource e = false) t.

(** The three places searched when no path is given (lines 150-154). *)
Definition standard_locations (w : world) (home_dir : string) : list string :=
  [joinpath (cwd w) DEFAULT_CONFIG_FILENAME;
   joinpath home_dir ("." +:+ DEFAULT_CONFIG_FILENAME);
   joinpath (joinpath (joinpath home_dir ".config") "mcp") DEFAULT_CONFIG_FILENAME].

(** Sample inputs: a stdio entry with an upper-case label and a malformed
    default_headers, inside a file that names it as the default server. *)
Definition stdio_entry : gmap string pyval :=
  <["transport" := PStr "STDIO"]>
  (<["command" := PStr "echo"]>
  (<["args" := PList [PStr "hi"]]>
  (<["base_url" := PStr "http://ignored/"]>
  (<["default_headers" := PList [PStr "x"]]> ∅)))).

Definition stdio_servers : gmap string pyval := <["a" := PDict stdio_entry]> ∅.

Definition stdio_file : gmap string pyval :=
  <["default_server" := PStr "a"]> (<["servers" := PDict stdio_servers]> ∅).

(** A file whose only entry has no transport key. *)
Definition plain_entry : gmap string pyval :=
  <["base_url" := PStr "http://localhost:8000/"]> (<["timeout" := PInt 30]> ∅).
Definition plain_servers : gmap string pyval := <["a" := PDict plain_entry]> ∅.
Definition plain_file : gmap string pyval := <["servers" := PDict plain_servers]> ∅.

(** The prefix of every trace that reads [/etc/mcp/mcp.json] by explicit path. *)
Definition located : trace :=
  [FsResolve "/etc/mcp/mcp.json"; FsIsFile "/etc/mcp/mcp.json"].

(** A machine without a home directory and with [mcp.json] in the working
    directory; a machine whose only configuration file is the second of the
    standard locations. *)
Definition homeless_world : world :=
  {| environ := fun _ => None;
     cwd := "/srv/app";
     home := None;
     resolve := fun p => p;
     is_file := fun p => Some (bool_decide (p = "/srv/app/mcp.json"));
     load := fun _ => Loaded sample_config |}.

Definition dotfile_world : world :=
  {| environ := fun _ => None;
     cwd := "/srv/app";
     home := Some "/home/user";
     resolve := fun p => p;
     is_file := fun p =>
       if bool_decide (p = "/srv/app/mcp.json") then None
       else Some (bool_decide (p = "/home/user/.mcp.json"));
     load := fun _ => Loaded sample_config |}.

(** Collaborators with a handshake that fails, and with a session whose exit
    raises. *)
Definition failing_handshake : collaborators :=
  {| enter := fun _ => None;
     initialize := fun _ => Some (Raise ForeignError "handshake failed");
     exit := fun _ _ => Returns false |}.

Definition failing_exit : collaborators :=
  {| enter := fun _ => None;
     initialize := fun _ => None;
     exit := fun r _ => match r with
                        | Session _ => Raises (Raise ForeignError "exit failed")
                        | _ => Returns false
                        end |}.

(** Collaborators with a session whose exit raises and a transport whose
    exit suppresses what is pending. *)
Definition suppressing_exit : collaborators :=
  {| enter := fun _ => None;
     initialize := fun _ => None;
     exit := fun r _ => match r with
                        | Session _ => Raises (Raise ForeignError "exit failed")
                        | _ => Returns true
                        end |}.

(** Adapters that answer with a fixed value. *)
Definition echo_adapters : adapters :=
  {| load_mcp_tools := fun _ => Ok (PList []);
     load_mcp_prompt := fun _ _ _ => Ok (PList []);
     session_call_tool := fun _ name _ => Ok (PStr name) |}.

(** The stdio transport of a client built with [command="echo"]. *)
Definition echo_client : MCPClient :=
  {| transport := PStr "stdio"; command := PStr "echo"; args := PList [PStr "hi"];
     base_url := PNone; timeout := PInt DEFAULT_TIMEOUT;
     default_parameters := ∅; headers := ∅;
     _mcp_client := None; _exit_stack := None |}.

Definition echo_transport : resource :=
  StdioTransport (PStr "echo") (PList [PStr "hi"]) (<["PATH" := EmptyString]> ∅).

(** The value lines 258-263 go on with: a [default_headers] or
    [default_parameters] of the file that is neither None nor a dictionary
    is replaced by None. *)
Definition accepted_dict (v : pyval) : pyval :=
  if negb (is_none v) && negb (isinstance_dict v) then PNone else v.

(** The warning of lines 259 and 262. *)
Definition ignored_warning (field alias : string) (v : pyval) : event :=
  LogWarning ("Invalid '" +:+ field +:+ "' format for server '" +:+ alias
              +:+ "'. Expected a dictionary, got <class '"
              +:+ type_name v +:+ "'>. Ignoring.").

(** An entry with a transport this client does not know, and one whose
    transport is a number. *)
Definition websocket_entry : gmap string pyval :=
  <["transport" := PStr "WebSocket"]> (<["base_url" := PStr "ws://localhost"]> ∅).
Definition websocket_servers : gmap string pyval :=
  <["a" := PDict websocket_entry]> ∅.
Definition websocket_file : gmap string pyval :=
  <["servers" := PDict websocket_servers]> ∅.

Definition sse_only_entry : gmap string pyval := <["transport" := PStr "sse"]> ∅.
Definition sse_only_servers : gmap string pyval :=
  <["default" := PDict sse_only_entry]> ∅.
Definition sse_only_file : gmap string pyval :=
  <["servers" := PDict sse_only_servers]> ∅.

(** * Properties *)

(** ** The effect monad *)

Lemma bind_Ok {A B} (m : M A) (k : A -> M B) t b :
  bind m k = (t, Ok b) ->
  exists t1 a t2, m = (t1, Ok a) /\ k a = (t2, Ok b) /\ t = t1 ++ t2.
Proof.
  unfold bind. destruct m as [t1 [a|e]]; [|discriminate].
  destruct (k a) as [t2 r] eqn:E. intros [= <- ->]. eauto 10.
Qed.

Lemma bind_Ok_l {A B} (m : M A) (k : A -> M B) t a :
  m = (t, Ok a) -> bind m k = (t ++ fst (k a), snd (k a)).
Proof. intros ->. unfold bind. by destruct (k a). Qed.

Lemma bind_Err_l {A B} (m : M A) (k : A -> M B) t e :
  m = (t, Err e) -> bind m k = (t, Err e).
Proof. by intros ->. Qed.

Tactic Notation "bind_inv" hyp(H) "as" ident(a) ident(Ha) ident(Hk) ident(Ht) :=
  apply bind_Ok in H; destruct H as (? & a & ? & Ha & Hk & Ht).

(** ** Strings *)

Lemma rstrip_decompose c s : exists n, s = rstrip c s +:+ str_repeat c n.
Proof.
  induction s as [|a r [n IH]]; [by exists O|]. simpl.
  destruct (rstrip c r) as [|b r'] eqn:E.
  - destruct (Ascii.eqb_spec a c) as [->|_].
    + exists (S n). simpl. by rewrite IH at 1.
    + exists n. simpl. by rewrite IH at 1.
  - exists n. simpl. by rewrite IH at 1.
Qed.

Lemma rstrip_not_ends_with c s : ends_with c (rstrip c s) = false.
Proof.
  induction s as [|a r IH]; [done|]. simpl.
  destruct (rstrip c r) as [|b r'] eqn:E.
  - destruct (Ascii.eqb_spec a c) as [->|Hne]; [done|]. simpl.
    by apply Ascii.eqb_neq.
  - done.
Qed.

Lemma rstrip_repeat c n : rstrip c (str_repeat c n) = EmptyString.
Proof. induction n as [|n IH]; [done|]. simpl. by rewrite IH, Ascii.eqb_refl. Qed.

Lemma rstrip_empty c s :
  rstrip c s = EmptyString <-> exists n, s = str_repeat c n.
Proof.
  split.
  - intros E. destruct (rstrip_decompose c s) as [n Hn]. rewrite E in Hn. eauto.
  - intros [n ->]. apply rstrip_repeat.
Qed.

Lemma startswith_split p s :
  startswith p s = true -> exists r, s = p +:+ r.
Proof.
  unfold startswith. revert s. induction p as [|a p IH]; intros s H.
  - by exists s.
  - destruct s as [|b s]; [discriminate|]. cbn [String.prefix] in H.
    destruct (ascii_dec a b) as [<-|]; [|discriminate].
    destruct (IH _ H) as [r ->]. by exists r.
Qed.

Lemma startswith_app p r : startswith p (p +:+ r) = true.
Proof.
  unfold startswith. induction p as [|a p IH]; [by destruct r|].
  change (String.prefix (String a p) (String a (p +:+ r)) = true).
  cbn [String.prefix]. destruct (ascii_dec a a); [exact IH|congruence].
Qed.

(** ** The constructor *)

Lemma split1_snd_env name : split1_snd ":" ("env:" +:+ name) = Some name.
Proof. reflexivity. Qed.

Lemma update_if_truthy_Ok d v t d' :
  update_if_truthy d v = (t, Ok d') -> t = [] /\ d' = dict_of v ∪ d.
Proof.
  unfold update_if_truthy, dict_update, ret, raise.
  destruct v as [| [] | n | [|a s] | [|x l] | o]; simpl;
    try discriminate; try (intros [= <- <-]; by rewrite (left_id_L ∅ (∪))).
  - destruct (negb (n =? 0)%Z); [discriminate|].
    intros [= <- <-]. by rewrite (left_id_L ∅ (∪)).
  - destruct (map_to_list o) eqn:E.
    + apply map_to_list_empty_iff in E as ->.
      intros [= <- <-]. by rewrite (left_id_L ∅ (∪)).
    + by intros [= <- <-].
Qed.

Lemma update_if_truthy_mapping d v :
  optional_mapping v = true -> update_if_truthy d v = ([], Ok (dict_of v ∪ d)).
Proof.
  unfold update_if_truthy, dict_update, ret.
  destruct v as [| | | | |o]; try discriminate; intros _; simpl.
  - by rewrite (left_id_L ∅ (∪)).
  - destruct (map_to_list o) eqn:E; [|done].
    apply map_to_list_empty_iff in E as ->. by rewrite (left_id_L ∅ (∪)).
Qed.

Lemma strip_base_url_Ok v t v' :
  strip_base_url v = (t, Ok v') ->
  t = [] /\
  ((truthy v = false /\ v' = PNone) \/
   (exists s, v = PStr s /\ s <> EmptyString /\ v' = PStr (rstrip "/" s))).
Proof.
  unfold strip_base_url, ret, raise.
  destruct (truthy v) eqn:Tv.
  - destruct v as [| | | s | |]; try discriminate.
    intros [= <- <-]. split; [done|]. right. exists s. by destruct s.
  - intros [= <- <-]. auto.
Qed.

Lemma strip_base_url_str v :
  optional_str v = true ->
  strip_base_url v =
    ([], Ok (match v with
             | PStr (String a r) => PStr (rstrip "/" (String a r))
             | _ => PNone
             end)).
Proof. by destruct v as [| | | [|a r] | |]. Qed.

(** The secret is looked up without ever raising, and is a string or None. *)
Lemma resolve_api_key_total w api_key :
  exists t key,
    resolve_api_key w api_key = (t, Ok key) /\ optional_str key = true.
Proof.
  unfold resolve_api_key.
  destruct api_key as [| | | k | |]; try (by exists [], PNone).
  destruct (startswith "env:" k) eqn:E; [|by exists [], (PStr k)].
  apply startswith_split in E as [name ->]. rewrite split1_snd_env.
  destruct (environ w name) as [[|a s]|]; simpl; eauto.
Qed.

Lemma init_Ok w bu to ak dh dp cdh cdp tr cmd ar t c :
  __init__ w bu to ak dh dp cdh cdp tr cmd ar = (t, Ok c) ->
  exists key,
    resolve_api_key w ak = (t, Ok key) /\
    strip_base_url bu = ([], Ok (base_url c)) /\
    transport c = tr /\ command c = cmd /\
    args c = py_or ar (PList []) /\ timeout c = to /\
    default_parameters c = dict_of dp ∪ dict_of cdp /\
    headers c =
      (if truthy key
       then <["Authorization" := PStr ("Bearer " +:+ py_str key)]>
              (dict_of dh ∪ dict_of cdh)
       else dict_of dh ∪ dict_of cdh) /\
    _mcp_client c = None /\ _exit_stack c = None.
Proof.
  unfold __init__. intros H.
  bind_inv H as bu' Hbu H Et1. destruct (strip_base_url_Ok _ _ _ Hbu) as [-> _].
  bind_inv H as p0 Hp0 H Et2. apply update_if_truthy_Ok in Hp0 as [-> ->].
  bind_inv H as p1 Hp1 H Et3. apply update_if_truthy_Ok in Hp1 as [-> ->].
  bind_inv H as key Hkey H Et4.
  bind_inv H as h0 Hh0 H Et5. apply update_if_truthy_Ok in Hh0 as [-> ->].
  bind_inv H as h1 Hh1 H Et6. apply update_if_truthy_Ok in Hh1 as [-> ->].
  unfold ret in H. injection H as <- <-.
  subst. simpl. rewrite !(right_id_L ∅ (∪)), !app_nil_r.
  exists key. by repeat split.
Qed.

(** With arguments of the announced shapes the constructor returns. *)
Lemma init_total w bu to ak dh dp cdh cdp tr cmd ar :
  optional_str bu = true ->
  optional_mapping dh = true -> optional_mapping dp = true ->
  optional_mapping cdh = true -> optional_mapping cdp = true ->
  exists t c, __init__ w bu to ak dh dp cdh cdp tr cmd ar = (t, Ok c).
Proof.
  intros Hbu Hdh Hdp Hcdh Hcdp.
  destruct (resolve_api_key_total w ak) as (tk & key & Hk & _).
  unfold __init__.
  rewrite (bind_Ok_l _ _ _ _ (strip_base_url_str _ Hbu)).
  rewrite (bind_Ok_l _ _ _ _ (update_if_truthy_mapping _ _ Hcdp)).
  rewrite (bind_Ok_l _ _ _ _ (update_if_truthy_mapping _ _ Hdp)).
  rewrite (bind_Ok_l _ _ _ _ Hk).
  rewrite (bind_Ok_l _ _ _ _ (update_if_truthy_mapping _ _ Hcdh)).
  rewrite (bind_Ok_l _ _ _ _ (update_if_truthy_mapping _ _ Hdh)).
  simpl. eauto.
Qed.

Lemma resolve_api_key_env w name :
  resolve_api_key w (PStr ("env:" +:+ name)) =
    match environ w name with
    | Some (String a s) => ([], Ok (PStr (String a s)))
    | Some EmptyString =>
        ([LogWarning ("API key environment variable '" +:+ name
                      +:+ "' specified but not found.")], Ok (PStr EmptyString))
    | None =>
        ([LogWarning ("API key environment variable '" +:+ name
                      +:+ "' specified but not found.")], Ok PNone)
    end.
Proof.
  unfold resolve_api_key. rewrite startswith_app, split1_snd_env.
  by destruct (environ w name) as [[|a s]|].
Qed.

Lemma lookup_union_pref (m1 m2 : gmap string pyval) k :
  (m1 ∪ m2) !! k = match m1 !! k with Some v => Some v | None => m2 !! k end.
Proof. rewrite lookup_union. by destruct (m1 !! k), (m2 !! k). Qed.

(** C10 (as amended): for every constructor call that returns, a base_url
    that is None or the empty string is stored as None; a non-empty string is
    stored with its whole trailing run of '/' removed; so a stored base_url
    never ends in '/'.  The stored value is the empty string exactly when the
    argument is a non-empty string made of '/' only. *)
Theorem C10_stored_base_url w bu to ak dh dp cdh cdp tr cmd ar t c :
  __init__ w bu to ak dh dp cdh cdp tr cmd ar = (t, Ok c) ->
  (bu = PNone \/ bu = PStr EmptyString -> base_url c = PNone) /\
  (forall s, bu = PStr s -> s <> EmptyString ->
     base_url c = PStr (rstrip "/" s) /\
     (exists n, s = rstrip "/" s +:+ str_repeat "/" n) /\
     ends_with "/" (rstrip "/" s) = false) /\
  (forall s', base_url c = PStr s' -> ends_with "/" s' = false) /\
  (base_url c = PStr EmptyString <->
   exists n, bu = PStr (str_repeat "/" (S n))).
Proof.
  intros H. apply init_Ok in H as (key & _ & Hb & _).
  apply strip_base_url_Ok in Hb as [_ Hb].
  repeat split.
  - intros [-> | ->]; destruct Hb as [[_ ->] | (s & [=] & Hs & _)]; congruence.
  - destruct Hb as [[Tv _] | (s' & -> & _ & ->)]; [by subst; destruct s|].
    by injection H as ->.
  - apply rstrip_decompose.
  - apply rstrip_not_ends_with.
  - intros s' E. destruct Hb as [[_ E'] | (s & _ & _ & E')]; rewrite E' in E.
    + discriminate.
    + injection E as <-. apply rstrip_not_ends_with.
  - intros E. destruct Hb as [[_ E'] | (s & -> & Hs & E')]; rewrite E' in E.
    + discriminate.
    + injection E as E. apply rstrip_empty in E as [[|n] ->]; [done|eauto].
  - intros [n ->]. destruct Hb as [[Tv _] | (s & [= <-] & _ & ->)].
    + discriminate.
    + f_equal. apply rstrip_empty. by exists (S n).
Qed.

Lemma C10_stored_base_url_witness :
  __init__ sample_world (PStr "http://localhost:8000//") (PInt 60) PNone PNone
           PNone PNone PNone (PStr "sse") PNone PNone
  = ([], Ok (fresh_client (PStr "sse") (PStr "http://localhost:8000"))) /\
  forall s',
    base_url (fresh_client (PStr "sse") (PStr "http://localhost:8000")) = PStr s' ->
    ends_with "/" s' = false.
Proof.
  split; [reflexivity|].
  apply (C10_stored_base_url sample_world (PStr "http://localhost:8000//")
           (PInt 60) PNone PNone PNone PNone PNone (PStr "sse") PNone PNone []).
  reflexivity.
Defined.

(** C10 (as stated) fails: [MCPClient(base_url="/")] stores the empty string. *)
Lemma C10_counterexample :
  match __init__ sample_world (PStr "/") (PInt 60) PNone PNone PNone PNone PNone
                 (PStr "sse") PNone PNone with
  | (_, Ok c) => base_url c = PStr EmptyString
  | (_, Err _) => False
  end.
Proof. reflexivity. Qed.

(** C5: with [api_key = "env:NAME"] and NAME unset or empty, the constructor
    returns, logs one warning and synthesizes no Authorization header (the
    headers are those of the file and of the caller, so none of that name
    when these carry none); with NAME set to a non-empty secret the headers
    hold [Authorization: Bearer secret]; an api_key that does not begin with
    "env:" is itself the secret. *)
Theorem C5_api_key_resolution w bu to dh dp cdh cdp tr cmd ar :
  optional_str bu = true ->
  optional_mapping dh = true -> optional_mapping dp = true ->
  optional_mapping cdh = true -> optional_mapping cdp = true ->
  (forall name,
     environ w name = None \/ environ w name = Some EmptyString ->
     exists c,
       __init__ w bu to (PStr ("env:" +:+ name)) dh dp cdh cdp tr cmd ar
       = ([LogWarning ("API key environment variable '" +:+ name
                       +:+ "' specified but not found.")], Ok c) /\
       headers c = dict_of dh ∪ dict_of cdh /\
       (dict_of dh !! "Authorization" = None ->
        dict_of cdh !! "Authorization" = None ->
        headers c !! "Authorization" = None)) /\
  (forall name secret,
     environ w name = Some secret -> secret <> EmptyString ->
     exists c,
       __init__ w bu to (PStr ("env:" +:+ name)) dh dp cdh cdp tr cmd ar
       = ([], Ok c) /\
       headers c !! "Authorization" = Some (PStr ("Bearer " +:+ secret))) /\
  (forall k,
     startswith "env:" k = false ->
     resolve_api_key w (PStr k) = ([], Ok (PStr k)) /\
     (k <> EmptyString ->
      exists c,
        __init__ w bu to (PStr k) dh dp cdh cdp tr cmd ar = ([], Ok c) /\
        headers c !! "Authorization" = Some (PStr ("Bearer " +:+ k)))).
Proof.
  intros Hbu Hdh Hdp Hcdh Hcdp. repeat split.
  - intros name Hn.
    destruct (init_total w bu to (PStr ("env:" +:+ name)) dh dp cdh cdp tr cmd ar)
      as (t & c & E); try done.
    exists c. destruct (init_Ok _ _ _ _ _ _ _ _ _ _ _ _ _ E)
      as (key & Hk & _ & _ & _ & _ & _ & _ & Hh & _).
    rewrite resolve_api_key_env in Hk.
    assert (t = [LogWarning ("API key environment variable '" +:+ name
                             +:+ "' specified but not found.")]
            /\ truthy key = false) as [-> Tk].
    { destruct Hn as [Hn|Hn]; rewrite Hn in Hk; by injection Hk as <- <-. }
    rewrite Tk in Hh. repeat split; [done|done|].
    intros N1 N2. by rewrite Hh, lookup_union_pref, N1.
  - intros name secret Hn Hs.
    destruct (init_total w bu to (PStr ("env:" +:+ name)) dh dp cdh cdp tr cmd ar)
      as (t & c & E); try done.
    exists c. destruct (init_Ok _ _ _ _ _ _ _ _ _ _ _ _ _ E)
      as (key & Hk & _ & _ & _ & _ & _ & _ & Hh & _).
    rewrite resolve_api_key_env, Hn in Hk. destruct secret as [|a s]; [done|].
    injection Hk as <- <-. split; [done|].
    rewrite Hh. simpl. apply lookup_insert_eq.
  - unfold resolve_api_key. by rewrite H.
  - intros Hk0.
    destruct (init_total w bu to (PStr k) dh dp cdh cdp tr cmd ar)
      as (t & c & E); try done.
    exists c. destruct (init_Ok _ _ _ _ _ _ _ _ _ _ _ _ _ E)
      as (key & Hk & _ & _ & _ & _ & _ & _ & Hh & _).
    unfold resolve_api_key in Hk. rewrite H in Hk. injection Hk as <- <-.
    split; [done|]. rewrite Hh. destruct k; [done|]. simpl.
    apply lookup_insert_eq.
Qed.

Lemma C5_api_key_resolution_witness :
  exists c,
    __init__ sample_world (PStr "http://localhost:8000") (PInt 60)
             (PStr "env:FOO") PNone PNone PNone PNone (PStr "sse") PNone PNone
    = ([], Ok c) /\
    headers c !! "Authorization" = Some (PStr "Bearer secret123").
Proof.
  refine (proj1 (proj2
    (C5_api_key_resolution sample_world (PStr "http://localhost:8000") (PInt 60)
       PNone PNone PNone PNone (PStr "sse") PNone PNone
       eq_refl eq_refl eq_refl eq_refl eq_refl)) "FOO" "secret123" eq_refl _).
  discriminate.
Defined.

(** C6: the headers are the file's default headers overridden key by key by
    the caller's, and when a secret was resolved the Authorization header made
    from it is written last, so that on the Authorization key the secret wins
    over whatever the file or the caller gave; the other keys are unchanged. *)
Theorem C6_header_assembly w bu to ak dh dp cdh cdp tr cmd ar t c :
  __init__ w bu to ak dh dp cdh cdp tr cmd ar = (t, Ok c) ->
  exists key,
    resolve_api_key w ak = (t, Ok key) /\
    (forall k, (dict_of dh ∪ dict_of cdh) !! k =
               match dict_of dh !! k with
               | Some v => Some v
               | None => dict_of cdh !! k
               end) /\
    (truthy key = false -> headers c = dict_of dh ∪ dict_of cdh) /\
    (forall secret,
       key = PStr secret -> secret <> EmptyString ->
       headers c = <["Authorization" := PStr ("Bearer " +:+ secret)]>
                     (dict_of dh ∪ dict_of cdh) /\
       headers c !! "Authorization" = Some (PStr ("Bearer " +:+ secret)) /\
       forall k, k <> "Authorization" ->
                 headers c !! k = (dict_of dh ∪ dict_of cdh) !! k).
Proof.
  intros H. apply init_Ok in H as (key & Hk & _ & _ & _ & _ & _ & _ & Hh & _).
  exists key. repeat split; try done.
  - intros k. apply lookup_union_pref.
  - intros Tk. by rewrite Tk in Hh.
  - subst key. destruct secret; [done|]. by rewrite Hh.
  - subst key. destruct secret; [done|]. rewrite Hh. apply lookup_insert_eq.
  - intros k Hne. subst key. destruct secret; [done|]. rewrite Hh. simpl.
    by rewrite lookup_insert_ne.
Qed.

Lemma C6_header_assembly_witness :
  __init__ sample_world (PStr "http://localhost:8000") (PInt 60) (PStr "k1")
           caller_headers PNone stale_headers PNone (PStr "sse") PNone PNone
  = ([], Ok sample_headers_client) /\
  exists key,
    resolve_api_key sample_world (PStr "k1") = ([], Ok key) /\
    (forall k, (dict_of caller_headers ∪ dict_of stale_headers) !! k =
               match dict_of caller_headers !! k with
               | Some v => Some v
               | None => dict_of stale_headers !! k
               end) /\
    (truthy key = false ->
     headers sample_headers_client = dict_of caller_headers ∪ dict_of stale_headers) /\
    (forall secret,
       key = PStr secret -> secret <> EmptyString ->
       headers sample_headers_client
       = <["Authorization" := PStr ("Bearer " +:+ secret)]>
           (dict_of caller_headers ∪ dict_of stale_headers) /\
       headers sample_headers_client !! "Authorization"
       = Some (PStr ("Bearer " +:+ secret)) /\
       forall k, k <> "Authorization" ->
                 headers sample_headers_client !! k
                 = (dict_of caller_headers ∪ dict_of stale_headers) !! k).
Proof.
  split; [vm_compute; reflexivity|].
  apply (C6_header_assembly sample_world (PStr "http://localhost:8000") (PInt 60)
           (PStr "k1") caller_headers PNone stale_headers PNone (PStr "sse")
           PNone PNone [] sample_headers_client).
  vm_compute; reflexivity.
Defined.

(** ** The session lifecycle *)

Lemma initialize_initialized co w self st :
  _exit_stack self = Some st -> _initialize co w self = ([], self, Ok tt).
Proof. unfold _initialize. by intros ->. Qed.

Lemma initialize_again_initialized co w n self st :
  _exit_stack self = Some st -> initialize_again co w n self = ([], self, true).
Proof.
  intros H. induction n as [|n IH]; [done|].
  simpl. by rewrite (initialize_initialized _ _ _ _ H), IH.
Qed.

Lemma open_session_keeps co tr self t self' r :
  open_session co tr self = (t, self', r) ->
  (is_Some (_exit_stack self) -> is_Some (_exit_stack self')) /\
  (forall e, r = Err e -> _mcp_client self' = _mcp_client self).
Proof.
  unfold open_session.
  destruct (enter co tr); [by intros [= <- <- <-]|].
  destruct (enter co (Session tr)); [by intros [= <- <- <-]; split; eauto|].
  destruct (initialize co (Session tr)); intros [= <- <- <-]; split; eauto.
  discriminate.
Qed.

Lemma initialize_leaves_stack co w self t self' r :
  _exit_stack self = None ->
  _initialize co w self = (t, self', r) ->
  is_Some (_exit_stack self') /\
  (forall e, r = Err e -> _mcp_client self' = _mcp_client self).
Proof.
  unfold _initialize. intros ->.
  repeat match goal with
         | |- context [if ?b then _ else _] => destruct b
         end;
    try (intros [= <- <- <-]; split; eauto; fail).
  all: intros H; apply open_session_keeps in H as [H1 H2];
       split; [apply H1; simpl; eauto | apply H2].
Qed.

Lemma aclose_nil co : aclose co [] = ([], None).
Proof. reflexivity. Qed.

Lemma py_eq_str_true v s : py_eq_str v s = true -> v = PStr s.
Proof.
  destruct v; try discriminate. simpl. intros H.
  apply bool_decide_eq_true in H. by subst.
Qed.

Lemma reset_fresh self :
  _exit_stack self = None -> _mcp_client self = None ->
  set_mcp_client None (set_exit_stack None (set_exit_stack (Some []) self)) = self.
Proof. destruct self. simpl. by intros -> ->. Qed.

(** C4: [close()] on a client that was never initialized (no exit stack, as
    the constructor leaves it) returns without touching anything and leaves
    the client as it is; a second [close()] right after a first one returns
    with an empty trace, and when the first one returned it had reset the
    exit stack (and with it the session) to None, so that the second changes
    nothing. *)
Theorem C4_close_noop co self :
  (_exit_stack self = None -> close co self = ([], self, Ok tt)) /\
  (forall w bu to ak dh dp cdh cdp tr cmd ar t c,
     __init__ w bu to ak dh dp cdh cdp tr cmd ar = (t, Ok c) ->
     close co c = ([], c, Ok tt)) /\
  (let '(t1, self1, r1) := close co self in
   let '(t2, self2, r2) := close co self1 in
   t2 = [] /\ r2 = Ok tt /\
   (r1 = Ok tt ->
    _exit_stack self1 = None /\ self2 = self1 /\
    (is_Some (_exit_stack self) -> _mcp_client self1 = None))).
Proof.
  split; [|split].
  - unfold close. by intros ->.
  - intros * H. apply init_Ok in H as (_ & _ & _ & _ & _ & _ & _ & _ & _ & _ & E).
    unfold close. by rewrite E.
  - unfold close. destruct (_exit_stack self) as [st|] eqn:E.
    + destruct (aclose co st) as [t [e|]]; simpl.
      * split; [done|]. split; [done|]. discriminate.
      * split; [done|]. split; [done|]. intros _. by repeat split.
    + rewrite E. split; [done|]. split; [done|]. intros _.
      split; [done|]. split; [done|]. by intros [x Hx].
Qed.

Lemma C4_close_noop_witness :
  close obliging (fresh_client (PStr "sse") (PStr "http://localhost:8000"))
  = ([], fresh_client (PStr "sse") (PStr "http://localhost:8000"), Ok tt).
Proof.
  exact (proj1 (C4_close_noop obliging
                  (fresh_client (PStr "sse") (PStr "http://localhost:8000")))
               eq_refl).
Defined.

(** C9: a failed initialization is not rolled back.  On a client without an
    exit stack and without a session, [_initialize] raises before opening
    anything when the transport is "http", is none of "stdio", "sse" and
    "http", or is "sse" with no base URL; whenever it raises, for these or
    for any other reason, the exit stack it created stays and the session is
    still None; every later [_initialize] then returns without raising, with
    an empty trace and the client unchanged; a [close()] that returns resets
    the exit stack and the session to None. *)
Theorem C9_failed_initialize_not_rolled_back co w self :
  _exit_stack self = None -> _mcp_client self = None ->
  ((py_eq_str (transport self) "http" = true \/
    (py_eq_str (transport self) "stdio" = false /\
     py_eq_str (transport self) "sse" = false /\
     py_eq_str (transport self) "http" = false) \/
    (py_eq_str (transport self) "sse" = true /\ truthy (base_url self) = false)) ->
   exists e,
     _initialize co w self = ([], set_exit_stack (Some []) self, Err e) /\
     exn_class_of e = (if py_eq_str (transport self) "sse"
                       then MCPConnectionError else ValueError) /\
     close co (set_exit_stack (Some []) self) = ([], self, Ok tt)) /\
  (forall t1 self1 e,
     _initialize co w self = (t1, self1, Err e) ->
     is_Some (_exit_stack self1) /\ _mcp_client self1 = None /\
     (forall n, initialize_again co w n self1 = ([], self1, true)) /\
     (forall t2 self2,
        close co self1 = (t2, self2, Ok tt) ->
        _exit_stack self2 = None /\ _mcp_client self2 = None)).
Proof.
  intros Hs Hm. split.
  - intros Hcase. unfold _initialize, close. rewrite Hs. simpl.
    rewrite (reset_fresh _ Hs Hm).
    destruct Hcase as [Hh | [(H1 & H2 & H3) | [H1 H2]]].
    + apply py_eq_str_true in Hh. rewrite Hh. simpl. eauto.
    + rewrite H1, H2, H3. eauto.
    + apply py_eq_str_true in H1 as H1'. rewrite H1', H2. simpl. eauto.
  - intros t1 self1 e H.
    destruct (initialize_leaves_stack _ _ _ _ _ _ Hs H) as [[st Hst] Hc].
    split; [eauto|]. split; [by rewrite (Hc e eq_refl)|]. split.
    + intros n. by apply initialize_again_initialized with st.
    + unfold close. rewrite Hst. destruct (aclose co st) as [t [e'|]]; [done|].
      by intros t2 self2 [= <- <-].
Qed.

Lemma C9_failed_initialize_not_rolled_back_witness :
  initialize_again obliging sample_world 3
    (set_exit_stack (Some []) (fresh_client (PStr "http") PNone))
  = ([], set_exit_stack (Some []) (fresh_client (PStr "http") PNone), true).
Proof.
  exact (proj1 (proj2 (proj2 (proj2
    (C9_failed_initialize_not_rolled_back obliging sample_world
       (fresh_client (PStr "http") PNone) eq_refl eq_refl)
    [] (set_exit_stack (Some []) (fresh_client (PStr "http") PNone))
    (Raise ValueError
       "HTTP transport is not supported by the official MCP library. Use 'sse' instead.")
    eq_refl))) 3).
Defined.

(** C2 (the code at the failing input): on a client with transport "http"
    the first [_initialize] raises ValueError without opening anything, and
    the next one on the same object returns normally. *)
Theorem C2_http_initialize_twice co w url :
  _initialize co w (fresh_client (PStr "http") url)
  = ([], set_exit_stack (Some []) (fresh_client (PStr "http") url),
     Err (Raise ValueError
            "HTTP transport is not supported by the official MCP library. Use 'sse' instead.")) /\
  _initialize co w (set_exit_stack (Some []) (fresh_client (PStr "http") url))
  = ([], set_exit_stack (Some []) (fresh_client (PStr "http") url), Ok tt).
Proof. split; reflexivity. Qed.

(** ** Resolution of the configuration *)

Lemma filtered_lookup ik k :
  filtered_kwargs ik !! k =
    match ik !! k with
    | Some v => if kept ik k v then Some v else None
    | None => None
    end.
Proof.
  unfold filtered_kwargs. rewrite map_lookup_filter.
  destruct (ik !! k) as [v|]; [|done]. simpl.
  case_guard as G; simpl in G; destruct (kept ik k v); try done.
Qed.

Lemma py_or_not_none a n : is_none (py_or a (PInt n)) = false.
Proof. unfold py_or. destruct (truthy a) eqn:E; [by destruct a|done]. Qed.

(** What the constructor receives from [from_config]. *)
Lemma construct_init_kwargs w kwargs bu to ak cdh cdp tr cmd ar :
  construct w (filtered_kwargs (init_kwargs kwargs bu to ak cdh cdp tr cmd ar))
  = __init__ w
      (kwargs_get kwargs "base_url" bu)
      (py_or (kwargs_get kwargs "timeout" to) (PInt DEFAULT_TIMEOUT))
      (kwargs_get kwargs "api_key" ak)
      (kwargs_get kwargs "default_headers" PNone)
      (kwargs_get kwargs "default_parameters" PNone)
      cdh cdp
      (passed_transport kwargs tr)
      (kwargs_get kwargs "command" cmd)
      (kwargs_get kwargs "args" ar).
Proof.
  unfold construct.
  set (ik := init_kwargs kwargs bu to ak cdh cdp tr cmd ar).
  assert (forall k v dflt,
            ik !! k = Some v ->
            (kept ik k v = false -> v = dflt) ->
            kwargs_get (filtered_kwargs ik) k dflt = v) as Hget.
  { intros k v dflt Hk Hd. unfold kwargs_get at 1.
    rewrite filtered_lookup, Hk. destruct (kept ik k v); [done|]. simpl.
    symmetry. by apply Hd. }
  assert (forall k v, kept ik k v = false -> v = PNone) as Hnone.
  { intros k v. unfold kept. destruct v; simpl; try done. }
  f_equal.
  - apply Hget; [reflexivity|apply Hnone].
  - apply Hget; [reflexivity|]. unfold kept.
    rewrite bool_decide_eq_true_2 by done.
    by rewrite orb_true_r.
  - apply Hget; [reflexivity|apply Hnone].
  - apply Hget; [reflexivity|apply Hnone].
  - apply Hget; [reflexivity|apply Hnone].
  - apply Hget; [reflexivity|apply Hnone].
  - apply Hget; [reflexivity|apply Hnone].
  - unfold passed_transport.
    destruct (is_none (kwargs_get kwargs "transport" (PStr tr))) eqn:E.
    + unfold kwargs_get at 1. rewrite filtered_lookup.
      change (ik !! "transport") with (Some (kwargs_get kwargs "transport" (PStr tr))).
      destruct (kwargs_get kwargs "transport" (PStr tr)); try done.
      unfold kept. rewrite !bool_decide_eq_false_2 by done.
      by rewrite !andb_false_r.
    + apply Hget; [reflexivity|]. intros K. apply Hnone in K.
      rewrite K in E. done.
  - apply Hget; [reflexivity|apply Hnone].
  - apply Hget; [reflexivity|apply Hnone].
Qed.

Lemma str_contains_unfold p s :
  str_contains p s =
    String.prefix p s
    || match s with EmptyString => false | String _ r => str_contains p r end.
Proof. by destruct s. Qed.

Lemma str_contains_app pre p post : str_contains p (pre +:+ p +:+ post) = true.
Proof.
  induction pre as [|a pre IH].
  - change (EmptyString +:+ p +:+ post) with (p +:+ post).
    rewrite str_contains_unfold.
    by rewrite (startswith_app p post : String.prefix _ _ = true).
  - change (String a pre +:+ p +:+ post) with (String a (pre +:+ p +:+ post)).
    rewrite str_contains_unfold, IH. apply orb_true_r.
Qed.

Lemma find_explicit w p :
  p <> EmptyString ->
  _find_config_file w (Some p)
  = ([FsResolve p; FsIsFile (resolve w p)],
     Ok (match is_file w (resolve w p) with
         | Some true => Some (resolve w p)
         | _ => None
         end)).
Proof.
  intros Hp. destruct p as [|a r]; [done|].
  unfold _find_config_file, potential_paths. simpl.
  by destruct (is_file w (resolve w (String a r))) as [[]|].
Qed.

Lemma from_config_found w sn cp kwargs t found :
  _find_config_file w cp = (t, Ok (Some found)) ->
  from_config w sn cp kwargs
  = after t
      (do config_data <- load_config w found;
       do target_server_name <- target_server found sn config_data;
       do server_config <- server_entry found target_server_name config_data;
       client_of_entry w target_server_name server_config kwargs).
Proof. intros H. unfold from_config. by rewrite (bind_Ok_l _ _ _ _ H). Qed.

Lemma from_config_loaded w sn cp kwargs t found config_data :
  _find_config_file w cp = (t, Ok (Some found)) ->
  load w found = Loaded config_data ->
  from_config w sn cp kwargs
  = after (t ++ [FsLoad found])
      (do target_server_name <- target_server found sn config_data;
       do server_config <- server_entry found target_server_name config_data;
       client_of_entry w target_server_name server_config kwargs).
Proof.
  intros Hf Hl. rewrite (from_config_found _ _ _ _ _ _ Hf).
  unfold load_config. rewrite Hl. unfold after, bind at 1 2. simpl.
  match goal with |- context [bind ?m ?k] => destruct (bind m k) as [t' r] end.
  simpl. by rewrite <- app_assoc.
Qed.

(** C8: an explicit config path, resolved, is the only candidate: the
    locator consults neither the working directory nor the home directory and
    probes that one path; when it is not a regular file the locator returns
    "not found" and [from_config] raises FileNotFoundError. *)
Theorem C8_explicit_path_only w p :
  p <> EmptyString ->
  potential_paths w (Some p) = ([FsResolve p], Ok [resolve w p]) /\
  (is_file w (resolve w p) <> Some true ->
   _find_config_file w (Some p)
   = ([FsResolve p; FsIsFile (resolve w p)], Ok None) /\
   forall server_name kwargs,
     from_config w server_name (Some p) kwargs
     = ([FsResolve p; FsIsFile (resolve w p)],
        Err (Raise FileNotFoundError
               ("MCP configuration file not found at '" +:+ p
                +:+ "' or in standard locations.")))) /\
  (is_file w (resolve w p) = Some true ->
   _find_config_file w (Some p)
   = ([FsResolve p; FsIsFile (resolve w p)], Ok (Some (resolve w p)))).
Proof.
  intros Hp. split; [by destruct p|]. split.
  - intros Hn.
    assert (_find_config_file w (Some p)
            = ([FsResolve p; FsIsFile (resolve w p)], Ok None)) as E.
    { rewrite (find_explicit _ _ Hp).
      by destruct (is_file w (resolve w p)) as [[]|]. }
    split; [done|]. intros sn kwargs. unfold from_config. by rewrite E.
  - intros Hy. by rewrite (find_explicit _ _ Hp), Hy.
Qed.

Lemma C8_explicit_path_only_witness :
  from_config sample_world None (Some "missing.json") ∅
  = ([FsResolve "missing.json"; FsIsFile "/srv/app/missing.json"],
     Err (Raise FileNotFoundError
            "MCP configuration file not found at 'missing.json' or in standard locations.")).
Proof.
  refine (proj2 (proj1 (proj2
    (C8_explicit_path_only sample_world "missing.json" _)) _) None ∅);
    discriminate.
Defined.

(** C7: when the located file holds malformed JSON, [from_config] raises
    MCPDataError with a message that contains the path of that file; when the
    located file cannot be read it raises OSError, another class, which is
    not the data-format one. *)
Theorem C7_malformed_json w server_name config_path kwargs t found e :
  _find_config_file w config_path = (t, Ok (Some found)) ->
  (load w found = JSONDecodeError e ->
   exists msg,
     from_config w server_name config_path kwargs
     = (t ++ [FsLoad found], Err (Raise MCPDataError msg)) /\
     str_contains found msg = true /\ data_format MCPDataError = true) /\
  (load w found = LoadOSError e ->
   exists msg,
     from_config w server_name config_path kwargs
     = (t ++ [FsLoad found], Err (Raise OSError msg)) /\
     OSError <> MCPDataError /\ data_format OSError = false).
Proof.
  intros Hf. rewrite (from_config_found _ _ _ _ _ _ Hf).
  unfold load_config, after. split; intros ->; eexists; (split; [reflexivity|]).
  - split; [|done]. apply str_contains_app.
  - done.
Qed.

Lemma C7_malformed_json_witness :
  exists msg,
    from_config (world_with (JSONDecodeError "Expecting value: line 1 column 1 (char 0)"))
                None (Some "/etc/mcp/mcp.json") ∅
    = ([FsResolve "/etc/mcp/mcp.json"; FsIsFile "/etc/mcp/mcp.json"]
       ++ [FsLoad "/etc/mcp/mcp.json"], Err (Raise MCPDataError msg)) /\
    str_contains "/etc/mcp/mcp.json" msg = true /\ data_format MCPDataError = true.
Proof.
  exact (proj1
    (C7_malformed_json
       (world_with (JSONDecodeError "Expecting value: line 1 column 1 (char 0)"))
       None (Some "/etc/mcp/mcp.json") ∅
       [FsResolve "/etc/mcp/mcp.json"; FsIsFile "/etc/mcp/mcp.json"]
       "/etc/mcp/mcp.json" "Expecting value: line 1 column 1 (char 0)" eq_refl)
    eq_refl).
Defined.

Lemma bind_pure_l {A B} (a : A) (k : A -> M B) : bind ([], Ok a) k = k a.
Proof. unfold bind. by destruct (k a). Qed.

Lemma bind_ret_l {A B} (a : A) (k : A -> M B) : bind (ret a) k = k a.
Proof. apply bind_pure_l. Qed.

Lemma after_bind_Ok {A B} t (m : M A) (k : A -> M B) a :
  m = ([], Ok a) -> after t (bind m k) = after t (k a).
Proof. intros ->. by rewrite bind_pure_l. Qed.

Lemma after_bind_Err {A B} t (m : M A) (k : A -> M B) e :
  m = ([], Err e) -> after t (bind m k) = (t, Err e).
Proof. intros ->. unfold after. simpl. by rewrite app_nil_r. Qed.

Lemma target_explicit found sn cfg name :
  given sn = Some name -> target_server found sn cfg = ([], Ok (PStr name)).
Proof. unfold target_server. by intros ->. Qed.

Lemma target_default_server found sn d v :
  given sn = None -> d !! "default_server" = Some v -> truthy v = true ->
  target_server found sn (PDict d) = ([], Ok v).
Proof.
  unfold target_server, py_get. intros -> Hd Tv. rewrite Hd, bind_ret_l.
  simpl. by rewrite Tv.
Qed.

Lemma target_default_alias found sn d :
  given sn = None ->
  truthy (default PNone (d !! "default_server")) = false ->
  target_server found sn (PDict d) =
    match default (PDict ∅) (d !! "servers") with
    | PDict servers =>
        if (match servers !! "default" with Some _ => true | None => false end)
        then ([], Ok (PStr "default"))
        else ([], Err (Raise ValueError
               ("No server_name specified and no 'default_server' key or 'default' server found in '"
                +:+ found +:+ "'.")))
    | PList l =>
        if existsb (fun x => py_eq_str x "default") l
        then ([], Ok (PStr "default"))
        else ([], Err (Raise ValueError
               ("No server_name specified and no 'default_server' key or 'default' server found in '"
                +:+ found +:+ "'.")))
    | PStr s =>
        if str_contains "default" s
        then ([], Ok (PStr "default"))
        else ([], Err (Raise ValueError
               ("No server_name specified and no 'default_server' key or 'default' server found in '"
                +:+ found +:+ "'.")))
    | PNone | PBool _ | PInt _ => ([], Err (Raise TypeError EmptyString))
    end.
Proof.
  unfold target_server. intros -> Tv. unfold py_get. rewrite !bind_ret_l, Tv.
  destruct (default (PDict ∅) (d !! "servers")) as [| | | s | l | servers];
    try reflexivity; unfold py_in; rewrite bind_ret_l.
  - by destruct (str_contains "default" s).
  - by destruct (existsb _ l).
  - by destruct (servers !! "default").
Qed.

Lemma entry_no_servers found target d :
  d !! "servers" = None \/
  (exists v, d !! "servers" = Some v /\ isinstance_dict v = false) ->
  server_entry found target (PDict d)
  = ([], Err (Raise MCPDataError
                ("Missing or invalid 'servers' dictionary in '" +:+ found +:+ "'."))).
Proof.
  unfold server_entry, py_get. rewrite bind_ret_l.
  intros [-> | (v & -> & Hv)]; [done|]. by destruct v.
Qed.

Lemma entry_lookup found name d servers :
  d !! "servers" = Some (PDict servers) ->
  server_entry found (PStr name) (PDict d) =
    match default PNone (servers !! name) with
    | PDict entry => ([], Ok entry)
    | _ => ([], Err (Raise KeyError
                       ("Server configuration '" +:+ name
                        +:+ "' not found or is not a valid dictionary in '"
                        +:+ found +:+ "'.")))
    end.
Proof.
  unfold server_entry, py_get. rewrite bind_ret_l. intros ->.
  change (default PNone (Some (PDict servers))) with (PDict servers).
  cbv beta iota. unfold dict_get. rewrite bind_ret_l.
  by destruct (default PNone (servers !! name)).
Qed.

Section AliasResolution.
Variables (w : world) (server_name config_path : option string).
Variables (kwargs : gmap string pyval) (t : trace) (found : string).
Variable d : gmap string pyval.
Hypothesis Hfind : _find_config_file w config_path = (t, Ok (Some found)).
Hypothesis Hload : load w found = Loaded (PDict d).

Local Abbreviation run := (from_config w server_name config_path kwargs).
Local Abbreviation fails c :=
  (exists msg, run = (t ++ [FsLoad found], Err (Raise c msg))).
Local Abbreviation selects alias entry :=
  (run = after (t ++ [FsLoad found])
               (client_of_entry w (PStr alias) entry kwargs)).
Local Abbreviation no_servers :=
  (d !! "servers" = None \/
   exists v, d !! "servers" = Some v /\ isinstance_dict v = false).

Lemma run_with_alias alias :
  target_server found server_name (PDict d) = ([], Ok (PStr alias)) ->
  (forall servers entry,
     d !! "servers" = Some (PDict servers) ->
     servers !! alias = Some (PDict entry) -> selects alias entry) /\
  (forall servers,
     d !! "servers" = Some (PDict servers) ->
     (servers !! alias = None \/
      exists v, servers !! alias = Some v /\ isinstance_dict v = false) ->
     fails KeyError) /\
  (no_servers -> fails MCPDataError).
Proof.
  intros Ht. rewrite (from_config_loaded _ _ _ _ _ _ _ Hfind Hload).
  rewrite (after_bind_Ok _ _ _ _ Ht). repeat split.
  - intros servers entry Hs He.
    apply (after_bind_Ok _ _ (fun sc => client_of_entry w (PStr alias) sc kwargs)).
  by rewrite (entry_lookup _ _ _ _ Hs), He.
  - intros servers Hs He. eexists. apply after_bind_Err.
    rewrite (entry_lookup _ _ _ _ Hs).
    destruct He as [-> | (v & -> & Hv)]; [done|]. by destruct v.
  - intros Hn. eexists. apply after_bind_Err. by apply entry_no_servers.
Qed.

(** C3 (as amended): the alias is the explicit non-empty server_name, else
    the file's default_server (a non-empty string), else "default" when the
    test ["default" in servers] holds (servers an object with that key, or a
    list or a string that contains it), else, when servers is absent or is an
    object, a list or a string on which that test is false, [from_config]
    raises ValueError (configuration-missing).  With the alias so chosen, the
    entry of that name is the one loaded; [from_config] raises KeyError
    (configuration-missing) when the servers map is an object and that entry
    is absent from it or not an object, and MCPDataError (data-format, not
    configuration-missing) when the servers map is absent or not an
    object. *)
Theorem C3_alias_resolution :
  (forall alias,
     (given server_name = Some alias \/
      (given server_name = None /\
       d !! "default_server" = Some (PStr alias) /\ alias <> EmptyString) \/
      (given server_name = None /\
       truthy (default PNone (d !! "default_server")) = false /\
       alias = "default" /\
       ((exists servers,
           d !! "servers" = Some (PDict servers) /\ is_Some (servers !! "default")) \/
        (exists l,
           d !! "servers" = Some (PList l) /\
           existsb (fun x => py_eq_str x "default") l = true) \/
        (exists s,
           d !! "servers" = Some (PStr s) /\ str_contains "default" s = true)))) ->
     (forall servers entry,
        d !! "servers" = Some (PDict servers) ->
        servers !! alias = Some (PDict entry) -> selects alias entry) /\
     (forall servers,
        d !! "servers" = Some (PDict servers) ->
        (servers !! alias = None \/
         exists v, servers !! alias = Some v /\ isinstance_dict v = false) ->
        fails KeyError /\ configuration_missing KeyError = true) /\
     (no_servers ->
      fails MCPDataError /\
      data_format MCPDataError = true /\
      configuration_missing MCPDataError = false)) /\
  (given server_name = None ->
   truthy (default PNone (d !! "default_server")) = false ->
   (d !! "servers" = None \/
    (exists servers,
       d !! "servers" = Some (PDict servers) /\ servers !! "default" = None) \/
    (exists l,
       d !! "servers" = Some (PList l) /\
       existsb (fun x => py_eq_str x "default") l = false) \/
    (exists s,
       d !! "servers" = Some (PStr s) /\ str_contains "default" s = false)) ->
   fails ValueError /\ configuration_missing ValueError = true).
Proof.
  split.
  - intros alias Hsel.
    assert (target_server found server_name (PDict d) = ([], Ok (PStr alias)))
      as Ht.
    { destruct Hsel as [Hg | [(Hg & Hd & Ha) | (Hg & Hd & -> & Hin)]].
      - by apply target_explicit.
      - apply target_default_server; [done|done|]. by destruct alias.
      - rewrite (target_default_alias _ _ _ Hg Hd).
        destruct Hin as [(servers & -> & [x Hx]) | [(l & -> & Hl) | (s & -> & Hl)]];
          simpl.
        + by rewrite Hx.
        + by rewrite Hl.
        + by rewrite Hl. }
    destruct (run_with_alias alias Ht) as (H1 & H2 & H3).
    split; [done|]. split; [by split; eauto|]. intros Hn. by split; eauto.
  - intros Hg Hd Hs. split; [|done].
    rewrite (from_config_loaded _ _ _ _ _ _ _ Hfind Hload).
    eexists. apply after_bind_Err.
    rewrite (target_default_alias _ _ _ Hg Hd).
    destruct Hs as [-> | [(servers & -> & Hn) | [(l & -> & Hl) | (s & -> & Hl)]]];
      simpl; [done|by rewrite Hn|by rewrite Hl|by rewrite Hl].
Qed.
End AliasResolution.

Lemma C3_alias_resolution_witness :
  from_config sample_world None (Some "/etc/mcp/mcp.json") ∅
  = after ([FsResolve "/etc/mcp/mcp.json"; FsIsFile "/etc/mcp/mcp.json"]
           ++ [FsLoad "/etc/mcp/mcp.json"])
          (client_of_entry sample_world (PStr "default") sample_entry ∅).
Proof.
  refine (proj1 (proj1
    (C3_alias_resolution sample_world None (Some "/etc/mcp/mcp.json") ∅
       [FsResolve "/etc/mcp/mcp.json"; FsIsFile "/etc/mcp/mcp.json"]
       "/etc/mcp/mcp.json"
       (<["servers" := PDict (<["default" := PDict sample_entry]> ∅)]> ∅)
       eq_refl eq_refl) "default" _)
    (<["default" := PDict sample_entry]> ∅) sample_entry eq_refl eq_refl).
  right. right. split; [reflexivity|]. split; [reflexivity|].
  split; [reflexivity|]. left.
  exists (<["default" := PDict sample_entry]> ∅).
  split; [reflexivity|]. exists (PDict sample_entry). reflexivity.
Defined.

(** C3 (as stated) fails: with a default_server and no "servers" map the
    failure is MCPDataError, the data-format class, not a
    configuration-missing one; and with no alias at all and a "servers" that
    is [null] the failure is the TypeError of the membership test, which is
    not a configuration-missing one either. *)
Lemma C3_counterexample :
  match from_config (world_with (Loaded no_servers_config)) None
                    (Some "/etc/mcp/mcp.json") ∅ with
  | (_, Err e) =>
      exn_class_of e = MCPDataError /\
      configuration_missing (exn_class_of e) = false
  | (_, Ok _) => False
  end /\
  match from_config (world_with (Loaded null_servers_config)) None
                    (Some "/etc/mcp/mcp.json") ∅ with
  | (_, Err e) =>
      exn_class_of e = TypeError /\
      configuration_missing (exn_class_of e) = false
  | (_, Ok _) => False
  end.
Proof. vm_compute. by repeat split. Qed.

Lemma rstrip_id c s : ends_with c s = false -> rstrip c s = s.
Proof.
  induction s as [|a r IH]; [done|]. simpl.
  destruct r as [|b r'].
  - simpl. by intros ->.
  - intros H. by rewrite (IH H).
Qed.

Lemma from_config_Ok w sn cp kwargs t c :
  from_config w sn cp kwargs = (t, Ok c) ->
  exists found config_data target entry tr bu cdh cdp t',
    load w found = Loaded config_data /\
    snd (server_entry found target config_data) = Ok entry /\
    snd (transport_of entry) = Ok tr /\
    snd (check_transport target tr (default PNone (entry !! "base_url"))
           (default PNone (entry !! "command"))
           (default PNone (entry !! "args"))) = Ok bu /\
    __init__ w
      (kwargs_get kwargs "base_url" bu)
      (py_or (kwargs_get kwargs "timeout" (default PNone (entry !! "timeout")))
             (PInt DEFAULT_TIMEOUT))
      (kwargs_get kwargs "api_key" (default PNone (entry !! "api_key")))
      (kwargs_get kwargs "default_headers" PNone)
      (kwargs_get kwargs "default_parameters" PNone)
      cdh cdp
      (passed_transport kwargs tr)
      (kwargs_get kwargs "command" (default PNone (entry !! "command")))
      (kwargs_get kwargs "args" (default PNone (entry !! "args")))
    = (t', Ok c).
Proof.
  unfold from_config. intros H.
  bind_inv H as found Hfound H Et. destruct found as [found|]; [|discriminate].
  bind_inv H as config_data Hcfg H Et1.
  bind_inv H as target Htarget H Et2.
  bind_inv H as entry Hentry H Et3.
  unfold client_of_entry in H.
  bind_inv H as tr Htr H Et4.
  bind_inv H as bu Hbu H Et5.
  bind_inv H as cdh Hcdh H Et6.
  bind_inv H as cdp Hcdp H Et7.
  rewrite construct_init_kwargs in H.
  exists found, config_data, target, entry, tr, bu, cdh, cdp.
  eexists. split; [|split; [|split; [|split]]];
    [|by rewrite Hentry|by rewrite Htr|by rewrite Hbu|exact H].
  unfold load_config in Hcfg. bind_inv Hcfg as u Hu Hcfg Et8.
  by destruct (load w found); try discriminate; injection Hcfg as <- <-.
Qed.

(** A returned client comes from the file that was located, the alias that
    was resolved in it and the entry of that alias. *)
Lemma from_config_Ok_tied w sn cp kwargs t c :
  from_config w sn cp kwargs = (t, Ok c) ->
  exists found config_data target entry t',
    snd (_find_config_file w cp) = Ok (Some found) /\
    load w found = Loaded config_data /\
    snd (target_server found sn config_data) = Ok target /\
    snd (server_entry found target config_data) = Ok entry /\
    client_of_entry w target entry kwargs = (t', Ok c).
Proof.
  unfold from_config. intros H.
  bind_inv H as found Hfound H Et. destruct found as [found|]; [|discriminate].
  bind_inv H as config_data Hcfg H Et1.
  bind_inv H as target Htarget H Et2.
  bind_inv H as entry Hentry H Et3.
  exists found, config_data, target, entry. eexists.
  split; [by rewrite Hfound|]. split; [|split; [by rewrite Htarget|]].
  - unfold load_config in Hcfg. bind_inv Hcfg as u Hu Hcfg Et8.
    by destruct (load w found); try discriminate; injection Hcfg as <- <-.
  - split; [by rewrite Hentry|exact H].
Qed.

Lemma client_of_entry_timeout w target entry kwargs t c :
  client_of_entry w target entry kwargs = (t, Ok c) ->
  timeout c = py_or (kwargs_get kwargs "timeout" (default PNone (entry !! "timeout")))
                    (PInt DEFAULT_TIMEOUT).
Proof.
  unfold client_of_entry. intros H.
  bind_inv H as tr Htr H Et4.
  bind_inv H as bu Hbu H Et5.
  bind_inv H as cdh Hcdh H Et6.
  bind_inv H as cdp Hcdp H Et7.
  rewrite construct_init_kwargs in H.
  by apply init_Ok in H as (_ & _ & _ & _ & _ & _ & -> & _).
Qed.

(** C1 (as amended): whenever [from_config] returns a client, an override
    decides the field it names: a truthy timeout, a transport, a command and
    an args list are stored as given; a non-empty base_url is stored with its
    trailing '/' removed, hence as given when it has none; a literal api_key
    becomes the Authorization header; the keys of default_headers (other than
    Authorization) and of default_parameters are stored with the values
    given.  Without a timeout override the timeout is the one of the entry
    that was resolved (in the file that was located, under the alias that was
    chosen) when that is truthy, and 60 otherwise. *)
Theorem C1_override_precedence w server_name config_path kwargs t c :
  from_config w server_name config_path kwargs = (t, Ok c) ->
  (forall v, kwargs !! "timeout" = Some v -> truthy v = true -> timeout c = v) /\
  (forall v, kwargs !! "transport" = Some v -> is_none v = false ->
             transport c = v) /\
  (forall v, kwargs !! "command" = Some v -> command c = v) /\
  (forall v, kwargs !! "args" = Some v -> truthy v = true \/ v = PList [] ->
             args c = v) /\
  (forall s, kwargs !! "base_url" = Some (PStr s) -> s <> EmptyString ->
             base_url c = PStr (rstrip "/" s) /\
             (ends_with "/" s = false -> base_url c = PStr s)) /\
  (forall k, kwargs !! "api_key" = Some (PStr k) ->
             startswith "env:" k = false -> k <> EmptyString ->
             headers c !! "Authorization" = Some (PStr ("Bearer " +:+ k))) /\
  (forall h, kwargs !! "default_headers" = Some (PDict h) ->
             forall k v, h !! k = Some v -> k <> "Authorization" ->
                         headers c !! k = Some v) /\
  (forall p, kwargs !! "default_parameters" = Some (PDict p) ->
             forall k v, p !! k = Some v -> default_parameters c !! k = Some v) /\
  (exists found config_data target entry,
     snd (_find_config_file w config_path) = Ok (Some found) /\
     load w found = Loaded config_data /\
     snd (target_server found server_name config_data) = Ok target /\
     snd (server_entry found target config_data) = Ok entry /\
     (kwargs !! "timeout" = None ->
      timeout c = py_or (default PNone (entry !! "timeout")) (PInt DEFAULT_TIMEOUT))).
Proof.
  intros H.
  pose proof (from_config_Ok_tied _ _ _ _ _ _ H)
    as (found0 & config_data0 & target0 & entry0 & t0
        & Tfind & Tload & Ttarget & Tentry & Tclient).
  apply client_of_entry_timeout in Tclient.
  apply from_config_Ok in H
    as (found & config_data & target & entry & tr & bu & cdh & cdp & t'
        & Hload & Hentry & _ & _ & H).
  apply init_Ok in H
    as (key & Hkey & Hbu & Htr & Hcmd & Hargs & Hto & Hparams & Hh & _).
  unfold kwargs_get, passed_transport, kwargs_get in *.
  repeat split.
  - intros v Hv Tv. rewrite Hto, Hv. simpl. unfold py_or. by rewrite Tv.
  - intros v Hv Nv. rewrite Htr, Hv. simpl. by rewrite Nv.
  - intros v Hv. by rewrite Hcmd, Hv.
  - intros v Hv [Tv | ->]; rewrite Hargs, Hv; simpl; unfold py_or;
      [by rewrite Tv|done].
  - rewrite H in Hbu. simpl in Hbu.
    apply strip_base_url_Ok in Hbu as [_ [[Tv _] | (s' & [= <-] & _ & ->)]];
      [by destruct s|done].
  - intros He. rewrite H in Hbu. simpl in Hbu.
    apply strip_base_url_Ok in Hbu as [_ [[Tv _] | (s' & [= <-] & _ & ->)]];
      [by destruct s|]. by rewrite (rstrip_id _ _ He).
  - intros k Hk Hp Hne. rewrite Hk in Hkey. simpl in Hkey.
    unfold resolve_api_key in Hkey. rewrite Hp in Hkey.
    injection Hkey as _ <-. rewrite Hh. destruct k; [done|]. simpl.
    apply lookup_insert_eq.
  - intros h Hd k v Hk Hne. rewrite Hd in Hh. simpl in Hh. rewrite Hh.
    destruct (truthy key); [rewrite lookup_insert_ne by done|];
      by rewrite lookup_union_pref, Hk.
  - intros p Hd k v Hk. rewrite Hd in Hparams. simpl in Hparams.
    by rewrite Hparams, lookup_union_pref, Hk.
  - exists found0, config_data0, target0, entry0.
    split; [done|]. split; [done|]. split; [done|]. split; [done|].
    intros Hn. rewrite Tclient. unfold kwargs_get. by rewrite Hn.
Qed.

Lemma C1_override_precedence_witness :
  from_config sample_world None (Some "/etc/mcp/mcp.json")
              (<["timeout" := PInt 10]> ∅)
  = (sample_trace, Ok (sample_client (PInt 10))) /\
  timeout (sample_client (PInt 10)) = PInt 10.
Proof.
  split; [vm_compute; reflexivity|].
  refine (proj1
    (C1_override_precedence sample_world None (Some "/etc/mcp/mcp.json")
       (<["timeout" := PInt 10]> ∅) sample_trace (sample_client (PInt 10)) _)
    (PInt 10) _ _); vm_compute; reflexivity.
Defined.

(** C1 (as stated) fails: an override [timeout=0] resolves to 60; an override
    [base_url="http://example.org/"] resolves to the URL without its last
    '/'; and with a file entry that lacks the base_url its transport
    requires, [from_config] raises although the override supplies one. *)
Lemma C1_counterexample :
  match from_config sample_world None (Some "/etc/mcp/mcp.json")
                    (<["timeout" := PInt 0]> ∅) with
  | (_, Ok c) => timeout c = PInt 60
  | (_, Err _) => False
  end /\
  match from_config sample_world None (Some "/etc/mcp/mcp.json")
                    (<["base_url" := PStr "http://example.org/"]> ∅) with
  | (_, Ok c) => base_url c = PStr "http://example.org"
  | (_, Err _) => False
  end /\
  match from_config (world_with (Loaded sse_without_url_config)) None
                    (Some "/etc/mcp/mcp.json")
                    (<["base_url" := PStr "http://example.org"]> ∅) with
  | (_, Ok _) => False
  | (_, Err e) => exn_class_of e = MCPDataError
  end.
Proof. vm_compute. by repeat split. Qed.

(** * Further properties of the code *)

(** ** Searching the standard locations *)

Lemma emit_then {A} e (m : M A) : (emit e ;; m) = (e :: fst m, snd m).
Proof. unfold bind, emit. by destruct m. Qed.

Lemma first_file_cons w q rest :
  first_file w (q :: rest) =
    match is_file w q with
    | Some true => ([FsIsFile q], Ok (Some q))
    | _ => (FsIsFile q :: fst (first_file w rest), snd (first_file w rest))
    end.
Proof.
  change (first_file w (q :: rest))
    with (emit (FsIsFile q) ;;
          match is_file w q with
          | Some true => ret (Some q)
          | _ => first_file w rest
          end).
  rewrite emit_then. by destruct (is_file w q) as [[]|].
Qed.

Lemma first_file_found w before p rest :
  Forall (fun q => is_file w q <> Some true) before ->
  is_file w p = Some true ->
  first_file w (before ++ p :: rest) = (map FsIsFile (before ++ [p]), Ok (Some p)).
Proof.
  intros Hb Hp. induction Hb as [|q before Hq _ IH]; cbn [app].
  - by rewrite first_file_cons, Hp.
  - rewrite first_file_cons, IH. by destruct (is_file w q) as [[]|].
Qed.

Lemma first_file_none w paths :
  Forall (fun q => is_file w q <> Some true) paths ->
  first_file w paths = (map FsIsFile paths, Ok None).
Proof.
  intros Hb. induction Hb as [|q paths Hq _ IH]; [done|].
  rewrite first_file_cons, IH. by destruct (is_file w q) as [[]|].
Qed.

Lemma potential_paths_search w config_path home_dir :
  given config_path = None -> home w = Some home_dir ->
  potential_paths w config_path = ([FsCwd; FsHome], Ok (standard_locations w home_dir)).
Proof. unfold potential_paths. by intros -> ->. Qed.

(** X1: without an explicit path the three standard locations are probed in
    the order working directory, [~/.mcp.json], [~/.config/mcp/mcp.json]; the
    first that is a regular file is returned and the later ones are not
    probed; a candidate whose probe raises OSError counts as not being a
    file; when none is a file the result is "not found", with no failure. *)
Theorem X1_search_order w config_path home_dir :
  given config_path = None -> home w = Some home_dir ->
  (forall before p rest,
     standard_locations w home_dir = before ++ p :: rest ->
     Forall (fun q => is_file w q <> Some true) before ->
     is_file w p = Some true ->
     _find_config_file w config_path
     = ([FsCwd; FsHome] ++ map FsIsFile (before ++ [p]), Ok (Some p))) /\
  (Forall (fun q => is_file w q <> Some true) (standard_locations w home_dir) ->
   _find_config_file w config_path
   = ([FsCwd; FsHome] ++ map FsIsFile (standard_locations w home_dir), Ok None)).
Proof.
  intros Hg Hh. unfold _find_config_file.
  rewrite (bind_Ok_l _ _ _ _ (potential_paths_search _ _ _ Hg Hh)). split.
  - intros before p rest -> Hb Hp. by rewrite (first_file_found _ _ _ _ Hb Hp).
  - intros Hb. by rewrite (first_file_none _ _ Hb).
Qed.

Lemma X1_search_order_witness :
  _find_config_file dotfile_world None
  = ([FsCwd; FsHome]
     ++ map FsIsFile (["/srv/app/mcp.json"] ++ ["/home/user/.mcp.json"]),
     Ok (Some "/home/user/.mcp.json")).
Proof.
  refine (proj1 (X1_search_order dotfile_world None "/home/user" eq_refl eq_refl)
            ["/srv/app/mcp.json"] "/home/user/.mcp.json"
            ["/home/user/.config/mcp/mcp.json"] eq_refl _ eq_refl).
  repeat constructor. discriminate.
Defined.

(** X2: when the home directory cannot be determined the search does not
    fail: a warning is logged and the working directory is the only
    candidate probed. *)
Theorem X2_no_home_directory w config_path :
  given config_path = None -> home w = None ->
  _find_config_file w config_path
  = ([FsCwd; FsHome;
      LogWarning "Could not determine home directory for config search.";
      FsIsFile (joinpath (cwd w) DEFAULT_CONFIG_FILENAME)],
     Ok (match is_file w (joinpath (cwd w) DEFAULT_CONFIG_FILENAME) with
         | Some true => Some (joinpath (cwd w) DEFAULT_CONFIG_FILENAME)
         | _ => None
         end)).
Proof.
  intros Hg Hh. unfold _find_config_file, potential_paths. rewrite Hg, Hh.
  simpl. by destruct (is_file w _) as [[]|].
Qed.

Lemma X2_no_home_directory_witness :
  _find_config_file homeless_world None
  = ([FsCwd; FsHome;
      LogWarning "Could not determine home directory for config search.";
      FsIsFile "/srv/app/mcp.json"],
     Ok (Some "/srv/app/mcp.json")).
Proof. exact (X2_no_home_directory homeless_world None eq_refl eq_refl). Defined.

(** ** Construction opens nothing *)

Lemma quiet_bind {A B} (m : M A) (k : A -> M B) :
  quiet (fst m) -> (forall a, quiet (fst (k a))) -> quiet (fst (bind m k)).
Proof.
  unfold bind. destruct m as [t [a|e]]; simpl; [|done].
  intros Ht Hk. specialize (Hk a). destruct (k a) as [t' r]. simpl in *.
  by apply Forall_app.
Qed.

Ltac quiet_step :=
  match goal with
  | |- quiet (fst (bind _ _)) => apply quiet_bind; [|intros ?]
  | |- quiet (fst (ret _)) => constructor
  | |- quiet (fst (raise _ _)) => constructor
  | |- quiet (fst (emit _)) => by repeat constructor
  | |- quiet (fst (match ?x with _ => _ end)) => destruct x
  | |- quiet (fst (if ?b then _ else _)) => destruct b
  end.

Lemma quiet_first_file w paths : quiet (fst (first_file w paths)).
Proof.
  induction paths as [|q paths IH]; [constructor|].
  rewrite first_file_cons. destruct (is_file w q) as [[]|]; by repeat constructor.
Qed.

Lemma quiet_find w config_path : quiet (fst (_find_config_file w config_path)).
Proof.
  unfold _find_config_file, potential_paths.
  apply quiet_bind; [|intros; apply quiet_first_file].
  repeat quiet_step.
Qed.

Lemma quiet_update d v : quiet (fst (update_if_truthy d v)).
Proof. unfold update_if_truthy, dict_update. repeat quiet_step. Qed.

Lemma quiet_init w bu to ak dh dp cdh cdp tr cmd ar :
  quiet (fst (__init__ w bu to ak dh dp cdh cdp tr cmd ar)).
Proof.
  unfold __init__, strip_base_url, resolve_api_key.
  repeat first [apply quiet_update | quiet_step].
Qed.

Lemma quiet_client_of_entry w target entry kwargs :
  quiet (fst (client_of_entry w target entry kwargs)).
Proof.
  unfold client_of_entry, transport_of, check_transport, dict_or_ignore, construct.
  repeat first [apply quiet_init | quiet_step].
Qed.

Lemma quiet_from_config w sn cp kwargs : quiet (fst (from_config w sn cp kwargs)).
Proof.
  unfold from_config, load_config, target_server, server_entry, py_get, py_in,
    dict_get.
  repeat first [apply quiet_find | apply quiet_client_of_entry | quiet_step].
Qed.

(** X3: building a client is lazy.  Neither [from_config] nor the
    constructor attempts anything on a transport or a session, whatever they
    return or raise, and the client they return has no exit stack and no
    session. *)
Theorem X3_construction_opens_nothing w server_name config_path kwargs :
  quiet (fst (from_config w server_name config_path kwargs)) /\
  (forall c, snd (from_config w server_name config_path kwargs) = Ok c ->
             _exit_stack c = None /\ _mcp_client c = None) /\
  (forall bu to ak dh dp cdh cdp tr cmd ar,
     quiet (fst (__init__ w bu to ak dh dp cdh cdp tr cmd ar)) /\
     forall c, snd (__init__ w bu to ak dh dp cdh cdp tr cmd ar) = Ok c ->
               _exit_stack c = None /\ _mcp_client c = None).
Proof.
  split; [apply quiet_from_config|]. split.
  - intros c H.
    destruct (from_config w server_name config_path kwargs) as [t r] eqn:E.
    simpl in H. subst r.
    apply from_config_Ok in E
      as (? & ? & ? & ? & ? & ? & ? & ? & ? & _ & _ & _ & _ & E).
    by apply init_Ok in E as (_ & _ & _ & _ & _ & _ & _ & _ & _ & ? & ?).
  - intros *. split; [apply quiet_init|]. intros c H.
    destruct (__init__ w bu to ak dh dp cdh cdp tr cmd ar) as [t r] eqn:E.
    simpl in H. subst r.
    by apply init_Ok in E as (_ & _ & _ & _ & _ & _ & _ & _ & _ & ? & ?).
Qed.

Lemma X3_construction_opens_nothing_witness :
  _exit_stack (sample_client (PInt 10)) = None /\
  _mcp_client (sample_client (PInt 10)) = None.
Proof.
  refine (proj1 (proj2
    (X3_construction_opens_nothing sample_world None (Some "/etc/mcp/mcp.json")
       (<["timeout" := PInt 10]> ∅))) (sample_client (PInt 10)) _).
  vm_compute; reflexivity.
Defined.

(** ** From a server entry to the client *)

Lemma dict_or_ignore_eq field alias v :
  dict_or_ignore field (PStr alias) v =
    (if negb (is_none v) && negb (isinstance_dict v)
     then [ignored_warning field alias v] else [],
     Ok (accepted_dict v)).
Proof.
  unfold dict_or_ignore, accepted_dict, ignored_warning.
  by destruct (negb (is_none v) && negb (isinstance_dict v)).
Qed.

Lemma accepted_dict_mapping v : optional_mapping (accepted_dict v) = true.
Proof. unfold accepted_dict. by destruct v. Qed.

Lemma dict_of_accepted v : dict_of (accepted_dict v) = dict_of v.
Proof. unfold accepted_dict. by destruct v. Qed.

Lemma transport_of_trace entry : fst (transport_of entry) = [].
Proof. unfold transport_of. by repeat case_match. Qed.

Lemma check_transport_trace target tr bu cmd ar :
  fst (check_transport target tr bu cmd ar) = [].
Proof. unfold check_transport. by repeat case_match. Qed.

Lemma kwargs_get_empty k dflt : kwargs_get ∅ k dflt = dflt.
Proof. unfold kwargs_get. by rewrite lookup_empty. Qed.

Lemma passed_transport_empty tr : passed_transport ∅ tr = PStr tr.
Proof. unfold passed_transport. by rewrite kwargs_get_empty. Qed.

(** The steps of [client_of_entry] once the transport checks have passed. *)
Lemma client_of_entry_checked w alias entry kwargs tr bu :
  transport_of entry = ([], Ok tr) ->
  check_transport (PStr alias) tr (default PNone (entry !! "base_url"))
    (default PNone (entry !! "command")) (default PNone (entry !! "args"))
  = ([], Ok bu) ->
  client_of_entry w (PStr alias) entry kwargs
  = after (fst (dict_or_ignore "default_headers" (PStr alias)
                  (default PNone (entry !! "default_headers")))
           ++ fst (dict_or_ignore "default_parameters" (PStr alias)
                     (default PNone (entry !! "default_parameters"))))
      (__init__ w
         (kwargs_get kwargs "base_url" bu)
         (py_or (kwargs_get kwargs "timeout" (default PNone (entry !! "timeout")))
                (PInt DEFAULT_TIMEOUT))
         (kwargs_get kwargs "api_key" (default PNone (entry !! "api_key")))
         (kwargs_get kwargs "default_headers" PNone)
         (kwargs_get kwargs "default_parameters" PNone)
         (accepted_dict (default PNone (entry !! "default_headers")))
         (accepted_dict (default PNone (entry !! "default_parameters")))
         (passed_transport kwargs tr)
         (kwargs_get kwargs "command" (default PNone (entry !! "command")))
         (kwargs_get kwargs "args" (default PNone (entry !! "args")))).
Proof.
  intros Htr Hck. unfold client_of_entry.
  rewrite Htr, bind_pure_l, Hck, bind_pure_l.
  rewrite !dict_or_ignore_eq. cbn [fst].
  rewrite (bind_Ok_l _ _ _ _ eq_refl).
  rewrite (bind_Ok_l _ _ _ _ eq_refl).
  rewrite construct_init_kwargs. unfold after. cbn [fst snd].
  by rewrite app_assoc.
Qed.

Lemma client_of_entry_transport_Err w target entry kwargs e :
  transport_of entry = ([], Err e) ->
  client_of_entry w target entry kwargs = ([], Err e).
Proof. intros H. unfold client_of_entry. by rewrite H. Qed.

Lemma client_of_entry_check_Err w target entry kwargs tr e :
  transport_of entry = ([], Ok tr) ->
  check_transport target tr (default PNone (entry !! "base_url"))
    (default PNone (entry !! "command")) (default PNone (entry !! "args"))
  = ([], Err e) ->
  client_of_entry w target entry kwargs = ([], Err e).
Proof.
  intros Htr H. unfold client_of_entry. by rewrite Htr, bind_pure_l, H.
Qed.

Lemma transport_of_label entry label :
  entry !! "transport" = Some (PStr label) ->
  transport_of entry = ([], Ok (lower label)).
Proof. unfold transport_of. by intros ->. Qed.

Lemma transport_of_absent entry :
  entry !! "transport" = None -> transport_of entry = ([], Ok "http").
Proof. unfold transport_of. by intros ->. Qed.

Lemma lower_ascii_idem c : lower_ascii (lower_ascii c) = lower_ascii c.
Proof. by destruct c as [[] [] [] [] [] [] [] []]. Qed.

Lemma lower_idem s : lower (lower s) = lower s.
Proof. induction s as [|c s IH]; [done|]. simpl. by rewrite lower_ascii_idem, IH. Qed.

Section LoadedEntry.
Variables (w : world) (alias : string) (config_path : option string).
Variables (t : trace) (found : string).
Variables d servers entry : gmap string pyval.
Hypothesis Halias : alias <> EmptyString.
Hypothesis Hfind : _find_config_file w config_path = (t, Ok (Some found)).
Hypothesis Hload : load w found = Loaded (PDict d).
Hypothesis Hservers : d !! "servers" = Some (PDict servers).
Hypothesis Hentry : servers !! alias = Some (PDict entry).

Local Abbreviation run kwargs := (from_config w (Some alias) config_path kwargs).
Local Abbreviation fails kwargs c :=
  (exists msg, run kwargs = (t ++ [FsLoad found], Err (Raise c msg))).

Lemma from_config_entry kwargs :
  run kwargs
  = after (t ++ [FsLoad found]) (client_of_entry w (PStr alias) entry kwargs).
Proof.
  destruct (run_with_alias w (Some alias) config_path kwargs t found d
              Hfind Hload alias) as (H & _).
  { apply target_explicit. by destruct alias. }
  by apply (H servers entry).
Qed.

Lemma from_config_entry_Err kwargs e :
  client_of_entry w (PStr alias) entry kwargs = ([], Err e) ->
  run kwargs = (t ++ [FsLoad found], Err e).
Proof.
  intros H. rewrite from_config_entry, H. unfold after. simpl.
  by rewrite app_nil_r.
Qed.

(** Without overrides an entry that passes the transport checks always
    gives a client, with the fields of the entry. *)
Lemma entry_loads tr bu :
  transport_of entry = ([], Ok tr) ->
  check_transport (PStr alias) tr (default PNone (entry !! "base_url"))
    (default PNone (entry !! "command")) (default PNone (entry !! "args"))
  = ([], Ok bu) ->
  optional_str bu = true ->
  exists t' c,
    run ∅ = ((t ++ [FsLoad found]) ++ t', Ok c) /\
    transport c = PStr tr /\
    strip_base_url bu = ([], Ok (base_url c)) /\
    command c = default PNone (entry !! "command") /\
    args c = py_or (default PNone (entry !! "args")) (PList []) /\
    timeout c = py_or (default PNone (entry !! "timeout")) (PInt DEFAULT_TIMEOUT) /\
    _exit_stack c = None.
Proof.
  intros Htr Hck Hbu.
  pose proof (from_config_entry ∅) as Hrun.
  rewrite (client_of_entry_checked _ _ _ _ _ _ Htr Hck) in Hrun.
  destruct (init_total w bu
              (py_or (default PNone (entry !! "timeout")) (PInt DEFAULT_TIMEOUT))
              (default PNone (entry !! "api_key")) PNone PNone
              (accepted_dict (default PNone (entry !! "default_headers")))
              (accepted_dict (default PNone (entry !! "default_parameters")))
              (PStr tr) (default PNone (entry !! "command"))
              (default PNone (entry !! "args")))
    as (ti & c0 & E); try done; try apply accepted_dict_mapping.
  change (kwargs_get ∅ "base_url" bu) with bu in Hrun.
  change (kwargs_get ∅ "timeout" (default PNone (entry !! "timeout")))
    with (default PNone (entry !! "timeout")) in Hrun.
  change (kwargs_get ∅ "api_key" (default PNone (entry !! "api_key")))
    with (default PNone (entry !! "api_key")) in Hrun.
  change (kwargs_get ∅ "default_headers" PNone) with PNone in Hrun.
  change (kwargs_get ∅ "default_parameters" PNone) with PNone in Hrun.
  change (passed_transport ∅ tr) with (PStr tr) in Hrun.
  change (kwargs_get ∅ "command" (default PNone (entry !! "command")))
    with (default PNone (entry !! "command")) in Hrun.
  change (kwargs_get ∅ "args" (default PNone (entry !! "args")))
    with (default PNone (entry !! "args")) in Hrun.
  rewrite E in Hrun. unfold after in Hrun. cbn [fst snd] in Hrun.
  eexists _, c0. split; [exact Hrun|].
  apply init_Ok in E as (_ & _ & Hb & -> & -> & -> & -> & _ & _ & _ & ->).
  by repeat split.
Qed.

(** X4: a stdio entry (the label in any letter case) with a non-empty string
    command and args that are absent, null or a list always loads when there
    are no overrides: the client has transport "stdio", the command and the
    args of the file, and no base_url, whatever base_url the entry carries. *)
Theorem X4_stdio_entry_loads label cmd :
  entry !! "transport" = Some (PStr label) -> lower label = "stdio" ->
  entry !! "command" = Some (PStr cmd) -> cmd <> EmptyString ->
  (entry !! "args" = None \/ entry !! "args" = Some PNone \/
   exists l, entry !! "args" = Some (PList l)) ->
  exists t' c,
    run ∅ = ((t ++ [FsLoad found]) ++ t', Ok c) /\
    transport c = PStr "stdio" /\
    command c = PStr cmd /\
    base_url c = PNone /\
    args c = match entry !! "args" with
             | Some (PList l) => PList l
             | _ => PList []
             end /\
    timeout c = py_or (default PNone (entry !! "timeout")) (PInt DEFAULT_TIMEOUT).
Proof.
  intros Hl Hlow Hc Hne Ha.
  destruct (entry_loads "stdio" PNone)
    as (t' & c & E & Ht & Hb & Hcmd & Har & Hto & _).
  { by rewrite (transport_of_label _ _ Hl), Hlow. }
  { unfold check_transport. rewrite Hc. destruct cmd; [done|]. simpl.
    by destruct Ha as [-> | [-> | [l ->]]]. }
  { done. }
  exists t', c. split; [done|]. split; [done|]. split; [by rewrite Hcmd, Hc|].
  split; [by injection Hb|]. split; [|done].
  rewrite Har. by destruct Ha as [-> | [-> | [[|x l] ->]]].
Qed.

(** X5: an "sse" or "http" entry (any letter case; "http" also when the
    entry has no transport key) with a non-empty string base_url always loads
    when there are no overrides: the client has that transport in lower case
    and the base_url of the file without its trailing '/'. *)
Theorem X5_network_entry_loads tr url :
  (entry !! "transport" = None /\ tr = "http") \/
  (exists label, entry !! "transport" = Some (PStr label) /\ lower label = tr /\
                 (tr = "http" \/ tr = "sse")) ->
  entry !! "base_url" = Some (PStr url) -> url <> EmptyString ->
  exists t' c,
    run ∅ = ((t ++ [FsLoad found]) ++ t', Ok c) /\
    transport c = PStr tr /\
    base_url c = PStr (rstrip "/" url) /\
    command c = default PNone (entry !! "command") /\
    timeout c = py_or (default PNone (entry !! "timeout")) (PInt DEFAULT_TIMEOUT).
Proof.
  intros Htr Hu Hne.
  destruct (entry_loads tr (PStr url))
    as (t' & c & E & Ht & Hb & Hcmd & _ & Hto & _).
  { destruct Htr as [[Hn ->] | (label & Hl & <- & _)];
      [by apply transport_of_absent | by apply transport_of_label]. }
  { unfold check_transport. rewrite Hu.
    assert (tr = "http" \/ tr = "sse") as [-> | ->]
      by (destruct Htr as [[_ ->] | (? & _ & _ & ?)]; auto);
      by destruct url. }
  { done. }
  exists t', c. split; [done|]. split; [done|]. split; [|done].
  rewrite strip_base_url_str in Hb by done. destruct url; [done|].
  by injection Hb.
Qed.

(** X6: the fields a transport requires are checked on the file's entry, and
    no override repairs them.  A stdio entry whose command is absent, empty
    or not a string, or whose args is neither null nor a list, and an "sse"
    or "http" entry whose base_url is absent, empty or not a string, make
    [from_config] raise MCPDataError whatever keyword arguments are given. *)
Theorem X6_required_fields kwargs :
  (forall label,
     entry !! "transport" = Some (PStr label) -> lower label = "stdio" ->
     truthy (default PNone (entry !! "command")) = false \/
     isinstance_str (default PNone (entry !! "command")) = false \/
     (is_none (default PNone (entry !! "args")) = false /\
      isinstance_list (default PNone (entry !! "args")) = false) ->
     fails kwargs MCPDataError) /\
  (forall tr,
     (entry !! "transport" = None /\ tr = "http") \/
     (exists label, entry !! "transport" = Some (PStr label) /\
                    lower label = tr /\ (tr = "http" \/ tr = "sse")) ->
     truthy (default PNone (entry !! "base_url")) = false \/
     isinstance_str (default PNone (entry !! "base_url")) = false ->
     fails kwargs MCPDataError).
Proof.
  split.
  - intros label Hl Hlow Hbad.
    assert (exists msg,
              check_transport (PStr alias) "stdio"
                (default PNone (entry !! "base_url"))
                (default PNone (entry !! "command"))
                (default PNone (entry !! "args"))
              = ([], Err (Raise MCPDataError msg))) as [msg Hck].
    { unfold check_transport. simpl.
      destruct (truthy (default PNone (entry !! "command"))); simpl; [|eauto].
      destruct (isinstance_str (default PNone (entry !! "command"))); simpl;
        [|eauto].
      destruct Hbad as [? | [? | [-> ->]]]; try done. simpl. eauto. }
    exists msg. apply from_config_entry_Err.
    apply client_of_entry_check_Err with "stdio"; [|done].
    by rewrite (transport_of_label _ _ Hl), Hlow.
  - intros tr Htr Hbad.
    assert (tr = "http" \/ tr = "sse") as Hcase
      by (destruct Htr as [[_ ->] | (? & _ & _ & ?)]; auto).
    assert (exists msg,
              check_transport (PStr alias) tr
                (default PNone (entry !! "base_url"))
                (default PNone (entry !! "command"))
                (default PNone (entry !! "args"))
              = ([], Err (Raise MCPDataError msg))) as [msg Hck].
    { unfold check_transport.
      destruct Hcase as [-> | ->]; simpl;
        destruct Hbad as [-> | ->]; simpl; rewrite ?orb_true_r; eauto. }
    exists msg. apply from_config_entry_Err.
    apply client_of_entry_check_Err with tr; [|done].
    destruct Htr as [[Hn ->] | (label & Hl & <- & _)];
      [by apply transport_of_absent | by apply transport_of_label].
Qed.

(** X7: the transport label of the entry decides before any override is
    looked at.  A label that is not "stdio", "http" or "sse" in lower case
    makes [from_config] raise ValueError, and a transport that is not a
    string (a number, [null], a list) makes it raise AttributeError, whatever
    keyword arguments are given, a transport override included. *)
Theorem X7_transport_label kwargs :
  (forall label,
     entry !! "transport" = Some (PStr label) ->
     lower label <> "stdio" -> lower label <> "http" -> lower label <> "sse" ->
     fails kwargs ValueError) /\
  (forall v,
     entry !! "transport" = Some v -> isinstance_str v = false ->
     fails kwargs AttributeError).
Proof.
  split.
  - intros label Hl H1 H2 H3. eexists. apply from_config_entry_Err.
    apply client_of_entry_check_Err with (lower label);
      [by apply transport_of_label|].
    unfold check_transport. by rewrite !bool_decide_eq_false_2.
  - intros v Hv Hs. exists EmptyString. apply from_config_entry_Err.
    apply client_of_entry_transport_Err. unfold transport_of. rewrite Hv.
    by destruct v.
Qed.
(** X11: an "http" entry (also one without a transport key) with a base_url
    is accepted by [from_config], and the client it gives can never be
    initialized: with any collaborators [_initialize] raises ValueError
    without attempting anything. *)
Theorem X11_http_entry_never_initializes url :
  entry !! "transport" = None \/
  (exists label, entry !! "transport" = Some (PStr label) /\ lower label = "http") ->
  entry !! "base_url" = Some (PStr url) -> url <> EmptyString ->
  exists t' c,
    run ∅ = ((t ++ [FsLoad found]) ++ t', Ok c) /\
    forall co w',
      _initialize co w' c
      = ([], set_exit_stack (Some []) c,
         Err (Raise ValueError
                "HTTP transport is not supported by the official MCP library. Use 'sse' instead.")).
Proof.
  intros Htr Hu Hne.
  destruct (entry_loads "http" (PStr url))
    as (t' & c & E & Ht & _ & _ & _ & _ & Hs).
  { destruct Htr as [Hn | (label & Hl & <-)];
      [by apply transport_of_absent | by apply transport_of_label]. }
  { unfold check_transport. rewrite Hu. by destruct url. }
  { done. }
  exists t', c. split; [done|]. intros co w'.
  unfold _initialize. rewrite Hs. simpl. by rewrite Ht.
Qed.
End LoadedEntry.

Lemma X4_stdio_entry_loads_witness :
  exists t' c,
    from_config (world_with (Loaded (PDict stdio_file))) (Some "a")
                (Some "/etc/mcp/mcp.json") ∅
    = ((located ++ [FsLoad "/etc/mcp/mcp.json"]) ++ t', Ok c) /\
    transport c = PStr "stdio" /\
    command c = PStr "echo" /\
    base_url c = PNone /\
    args c = PList [PStr "hi"] /\
    timeout c = PInt 60.
Proof.
  refine (X4_stdio_entry_loads (world_with (Loaded (PDict stdio_file))) "a"
            (Some "/etc/mcp/mcp.json") located "/etc/mcp/mcp.json"
            stdio_file stdio_servers stdio_entry _ eq_refl eq_refl eq_refl eq_refl
            "STDIO" "echo" eq_refl eq_refl eq_refl _ _).
  - discriminate.
  - discriminate.
  - right. right. by exists [PStr "hi"].
Defined.

Lemma X5_network_entry_loads_witness :
  exists t' c,
    from_config (world_with (Loaded (PDict plain_file))) (Some "a")
                (Some "/etc/mcp/mcp.json") ∅
    = ((located ++ [FsLoad "/etc/mcp/mcp.json"]) ++ t', Ok c) /\
    transport c = PStr "http" /\
    base_url c = PStr "http://localhost:8000" /\
    command c = PNone /\
    timeout c = PInt 30.
Proof.
  refine (X5_network_entry_loads (world_with (Loaded (PDict plain_file))) "a"
            (Some "/etc/mcp/mcp.json") located "/etc/mcp/mcp.json"
            plain_file plain_servers plain_entry _ eq_refl eq_refl eq_refl eq_refl
            "http" "http://localhost:8000/" _ eq_refl _).
  - discriminate.
  - left. by split.
  - discriminate.
Defined.

Lemma X6_required_fields_witness :
  exists msg,
    from_config (world_with (Loaded (PDict sse_only_file))) (Some "default")
                (Some "/etc/mcp/mcp.json")
                (<["base_url" := PStr "http://example.org"]> ∅)
    = (located ++ [FsLoad "/etc/mcp/mcp.json"], Err (Raise MCPDataError msg)).
Proof.
  refine (proj2
    (X6_required_fields (world_with (Loaded (PDict sse_only_file))) "default"
       (Some "/etc/mcp/mcp.json") located "/etc/mcp/mcp.json"
       sse_only_file sse_only_servers sse_only_entry _ eq_refl eq_refl eq_refl
       eq_refl (<["base_url" := PStr "http://example.org"]> ∅)) "sse" _ _).
  - discriminate.
  - right. exists "sse". split; [reflexivity|]. split; [reflexivity|]. by right.
  - by left.
Defined.

Lemma X7_transport_label_witness :
  exists msg,
    from_config (world_with (Loaded (PDict websocket_file))) (Some "a")
                (Some "/etc/mcp/mcp.json") (<["transport" := PStr "sse"]> ∅)
    = (located ++ [FsLoad "/etc/mcp/mcp.json"], Err (Raise ValueError msg)).
Proof.
  refine (proj1
    (X7_transport_label (world_with (Loaded (PDict websocket_file))) "a"
       (Some "/etc/mcp/mcp.json") located "/etc/mcp/mcp.json"
       websocket_file websocket_servers websocket_entry _ eq_refl eq_refl eq_refl
       eq_refl (<["transport" := PStr "sse"]> ∅)) "WebSocket" eq_refl _ _ _);
    discriminate.
Defined.

Lemma X11_http_entry_never_initializes_witness :
  exists t' c,
    from_config (world_with (Loaded (PDict plain_file))) (Some "a")
                (Some "/etc/mcp/mcp.json") ∅
    = ((located ++ [FsLoad "/etc/mcp/mcp.json"]) ++ t', Ok c) /\
    forall co w',
      _initialize co w' c
      = ([], set_exit_stack (Some []) c,
         Err (Raise ValueError
                "HTTP transport is not supported by the official MCP library. Use 'sse' instead.")).
Proof.
  refine (X11_http_entry_never_initializes
            (world_with (Loaded (PDict plain_file))) "a"
            (Some "/etc/mcp/mcp.json") located "/etc/mcp/mcp.json"
            plain_file plain_servers plain_entry _ eq_refl eq_refl eq_refl eq_refl
            "http://localhost:8000/" _ eq_refl _).
  - discriminate.
  - by left.
  - discriminate.
Defined.

Lemma client_of_entry_Ok w alias entry kwargs t' c :
  client_of_entry w (PStr alias) entry kwargs = (t', Ok c) ->
  exists tr bu ti,
    transport_of entry = ([], Ok tr) /\
    check_transport (PStr alias) tr (default PNone (entry !! "base_url"))
      (default PNone (entry !! "command")) (default PNone (entry !! "args"))
    = ([], Ok bu) /\
    __init__ w
      (kwargs_get kwargs "base_url" bu)
      (py_or (kwargs_get kwargs "timeout" (default PNone (entry !! "timeout")))
             (PInt DEFAULT_TIMEOUT))
      (kwargs_get kwargs "api_key" (default PNone (entry !! "api_key")))
      (kwargs_get kwargs "default_headers" PNone)
      (kwargs_get kwargs "default_parameters" PNone)
      (accepted_dict (default PNone (entry !! "default_headers")))
      (accepted_dict (default PNone (entry !! "default_parameters")))
      (passed_transport kwargs tr)
      (kwargs_get kwargs "command" (default PNone (entry !! "command")))
      (kwargs_get kwargs "args" (default PNone (entry !! "args")))
    = (ti, Ok c) /\
    t' = (fst (dict_or_ignore "default_headers" (PStr alias)
                 (default PNone (entry !! "default_headers")))
          ++ fst (dict_or_ignore "default_parameters" (PStr alias)
                    (default PNone (entry !! "default_parameters"))))
         ++ ti.
Proof.
  intros H.
  destruct (transport_of entry) as [t1 [tr|e]] eqn:Etr;
    pose proof (transport_of_trace entry) as T1; rewrite Etr in T1;
    simpl in T1; subst t1.
  2: { by rewrite (client_of_entry_transport_Err _ _ _ _ _ Etr) in H. }
  destruct (check_transport (PStr alias) tr (default PNone (entry !! "base_url"))
              (default PNone (entry !! "command")) (default PNone (entry !! "args")))
    as [t2 [bu|e]] eqn:Eck;
    match type of Eck with
    | ?m = _ => assert (fst m = []) as T2 by apply check_transport_trace
    end; rewrite Eck in T2; simpl in T2; subst t2.
  2: { by rewrite (client_of_entry_check_Err _ _ _ _ _ _ Etr Eck) in H. }
  rewrite (client_of_entry_checked _ _ _ _ _ _ Etr Eck) in H.
  unfold after in H.
  match type of H with
  | context [__init__ ?a1 ?a2 ?a3 ?a4 ?a5 ?a6 ?a7 ?a8 ?a9 ?a10 ?a11] =>
      destruct (__init__ a1 a2 a3 a4 a5 a6 a7 a8 a9 a10 a11)
        as [ti [c'|err]] eqn:E
  end; cbn [fst snd] in H; [|discriminate].
  injection H as <- <-. by exists tr, bu, ti.
Qed.

Section IgnoredFields.
Variables (w : world) (alias : string) (config_path : option string).
Variables (t : trace) (found : string).
Variables d servers entry : gmap string pyval.
Hypothesis Halias : alias <> EmptyString.
Hypothesis Hfind : _find_config_file w config_path = (t, Ok (Some found)).
Hypothesis Hload : load w found = Loaded (PDict d).
Hypothesis Hservers : d !! "servers" = Some (PDict servers).
Hypothesis Hentry : servers !! alias = Some (PDict entry).

(** X8: a [default_headers] or [default_parameters] of the entry that is
    neither null nor an object does not make [from_config] fail: whenever a
    client is returned, a warning naming the field and the type found has
    been logged, and the field of the file contributes nothing: the headers
    are the caller's plus the Authorization header, the parameters are the
    caller's. *)
Theorem X8_malformed_mapping_ignored kwargs tt c :
  from_config w (Some alias) config_path kwargs = (tt, Ok c) ->
  (forall v, entry !! "default_headers" = Some v ->
             is_none v = false -> isinstance_dict v = false ->
     In (ignored_warning "default_headers" alias v) tt /\
     forall k x, headers c !! k = Some x ->
                 k = "Authorization" \/
                 dict_of (kwargs_get kwargs "default_headers" PNone) !! k = Some x) /\
  (forall v, entry !! "default_parameters" = Some v ->
             is_none v = false -> isinstance_dict v = false ->
     In (ignored_warning "default_parameters" alias v) tt /\
     default_parameters c = dict_of (kwargs_get kwargs "default_parameters" PNone)).
Proof.
  intros H.
  rewrite (from_config_entry w alias config_path t found d servers entry
             Halias Hfind Hload Hservers Hentry) in H.
  unfold after in H.
  destruct (client_of_entry w (PStr alias) entry kwargs) as [t' r] eqn:E.
  cbn [fst snd] in H. injection H as <- ->.
  apply client_of_entry_Ok in E as (tr & bu & ti & _ & _ & Hinit & ->).
  apply init_Ok in Hinit as (key & _ & _ & _ & _ & _ & _ & Hp & Hh & _).
  rewrite !dict_or_ignore_eq. cbn [fst]. split.
  - intros v Hv Hn Hd. rewrite Hv in *.
    change (default PNone (Some v)) with v in *.
    rewrite Hn, Hd. cbn [negb andb]. split.
    { rewrite !in_app_iff. right. left. left. by left. }
    intros k x Hk. rewrite Hh in Hk.
    unfold accepted_dict in Hk. rewrite Hn, Hd in Hk. cbn in Hk.
    rewrite (right_id_L ∅ (∪)) in Hk.
    destruct (decide (k = "Authorization")) as [|Hne]; [by left|right].
    destruct (truthy key); [by rewrite lookup_insert_ne in Hk|done].
  - intros v Hv Hn Hd. rewrite Hv in *.
    change (default PNone (Some v)) with v in *.
    rewrite Hn, Hd. cbn [negb andb]. split.
    { rewrite !in_app_iff. right. left. right. by left. }
    rewrite Hp. unfold accepted_dict. rewrite Hn, Hd. cbn.
    by rewrite (right_id_L ∅ (∪)).
Qed.
End IgnoredFields.

Lemma X8_malformed_mapping_ignored_witness :
  In (ignored_warning "default_headers" "a" (PList [PStr "x"]))
     (located ++ [FsLoad "/etc/mcp/mcp.json";
                  ignored_warning "default_headers" "a" (PList [PStr "x"])]).
Proof.
  refine (proj1 (proj1
    (X8_malformed_mapping_ignored (world_with (Loaded (PDict stdio_file))) "a"
       (Some "/etc/mcp/mcp.json") located "/etc/mcp/mcp.json"
       stdio_file stdio_servers stdio_entry _ eq_refl eq_refl eq_refl eq_refl ∅
       (located ++ [FsLoad "/etc/mcp/mcp.json";
                    ignored_warning "default_headers" "a" (PList [PStr "x"])])
       echo_client _) (PList [PStr "x"]) eq_refl eq_refl eq_refl)).
  - discriminate.
  - vm_compute. reflexivity.
Defined.

(** X9: an override passed explicitly as None is not the same as no
    override: it hides the value of the file.  When [from_config] returns a
    client, [transport=None] gives the transport "http", [timeout=None] the
    default 60, [base_url=None] no base_url and [args=None] the empty list,
    whatever the entry says. *)
Theorem X9_none_override_hides_file w server_name config_path kwargs tt c :
  from_config w server_name config_path kwargs = (tt, Ok c) ->
  (kwargs !! "transport" = Some PNone -> transport c = PStr "http") /\
  (kwargs !! "timeout" = Some PNone -> timeout c = PInt DEFAULT_TIMEOUT) /\
  (kwargs !! "base_url" = Some PNone -> base_url c = PNone) /\
  (kwargs !! "args" = Some PNone -> args c = PList []).
Proof.
  intros H.
  apply from_config_Ok in H
    as (found & config_data & target & entry & tr & bu & cdh & cdp & t'
        & _ & _ & _ & _ & H).
  apply init_Ok in H as (key & _ & Hbu & Htr & _ & Hargs & Hto & _).
  unfold passed_transport, kwargs_get in *.
  split; [|split; [|split]]; intros Hk; rewrite Hk in *; try done.
  simpl in Hbu. by injection Hbu.
Qed.

Lemma X9_none_override_hides_file_witness :
  transport (fresh_client (PStr "http") (PStr "http://localhost:8000"))
  = PStr "http".
Proof.
  refine (proj1
    (X9_none_override_hides_file sample_world None (Some "/etc/mcp/mcp.json")
       (<["transport" := PNone]> (<["timeout" := PNone]> ∅)) sample_trace
       (fresh_client (PStr "http") (PStr "http://localhost:8000")) _) _);
    vm_compute; reflexivity.
Defined.

(** X10: the transport label of an entry is matched without regard to
    letter case: an entry is resolved the same way, to the same client or
    the same failure, whether its label is written as given or in lower
    case. *)
Theorem X10_transport_label_case w target entry label kwargs :
  client_of_entry w target (<["transport" := PStr label]> entry) kwargs
  = client_of_entry w target (<["transport" := PStr (lower label)]> entry) kwargs.
Proof.
  unfold client_of_entry.
  rewrite (transport_of_label _ label) by apply lookup_insert_eq.
  rewrite (transport_of_label _ (lower label)) by apply lookup_insert_eq.
  rewrite lower_idem. by rewrite !lookup_insert_ne by done.
Qed.

(** ** Opening and closing the session *)

Lemma unwind_trace co pending st : fst (unwind co pending st) = map Release st.
Proof.
  revert pending. induction st as [|r st IH]; intros pending; [done|]. simpl.
  match goal with
  | |- context [unwind co ?p st] =>
      specialize (IH p); destruct (unwind co p st) as [t final]
  end.
  simpl in *. by rewrite IH.
Qed.

Lemma aclose_trace co st : fst (aclose co st) = map Release st.
Proof. apply unwind_trace. Qed.

(** When no exit raises, nothing is ever pending. *)
Lemma aclose_ok co st :
  (forall x, In x st -> returns (exit co x None) = true) ->
  snd (aclose co st) = None.
Proof.
  unfold aclose. induction st as [|r st IH]; [done|]. intros H. simpl.
  assert (returns (exit co r None) = true) as Hr by (apply H; by left).
  destruct (exit co r None) as [e|[]]; [done| |];
    (specialize (IH (fun x Hx => H x (or_intror Hx)));
     destruct (unwind co None st) as [t final]; by simpl in *).
Qed.

(** An exception that is pending stays pending through contexts that never
    suppress. *)
Lemma unwind_pending co e st :
  (forall y p, In y st -> exit co y p <> Returns true) ->
  exists e', snd (unwind co (Some e) st) = Some e'.
Proof.
  revert e. induction st as [|r st IH]; intros e H; [by exists e|]. simpl.
  assert (exit co r (Some e) <> Returns true) as Hr by (apply H; by left).
  assert (forall y p, In y st -> exit co y p <> Returns true) as H'
    by (intros y p Hy; apply H; by right).
  destruct (exit co r (Some e)) as [e1|[]]; [|done|].
  - destruct (IH e1 H') as [e' He']. exists e'.
    by destruct (unwind co (Some e1) st).
  - destruct (IH e H') as [e' He']. exists e'.
    by destruct (unwind co (Some e) st).
Qed.

(** The exception of a context comes out of [aclose] when no context
    released after it suppresses. *)
Lemma aclose_err co front x back :
  (forall p, returns (exit co x p) = false) ->
  (forall y p, In y back -> exit co y p <> Returns true) ->
  exists e, snd (aclose co (front ++ x :: back)) = Some e.
Proof.
  intros Hx Hback. unfold aclose. generalize (@None exn) as pending.
  induction front as [|r front IH]; intros pending; simpl.
  - specialize (Hx pending). destruct (exit co x pending) as [e1|b]; [|done].
    destruct (unwind_pending co e1 back Hback) as [e' He']. exists e'.
    by destruct (unwind co (Some e1) back).
  - match goal with
    | |- context [unwind co ?p (front ++ x :: back)] =>
        destruct (IH p) as [e' He']; exists e';
          by destruct (unwind co p (front ++ x :: back))
    end.
Qed.

Lemma initialize_fresh_open co w self tr :
  _exit_stack self = None ->
  (py_eq_str (transport self) "stdio" = true /\
   tr = StdioTransport (command self) (args self)
          (<["PATH" := default EmptyString (environ w "PATH")]> ∅)) \/
  (py_eq_str (transport self) "sse" = true /\ truthy (base_url self) = true /\
   tr = SseTransport (base_url self) (headers self)
          DEFAULT_HTTP_TIMEOUT DEFAULT_SSE_READ_TIMEOUT) ->
  _initialize co w self = open_session co tr (set_exit_stack (Some []) self).
Proof.
  intros Hs Htr. unfold _initialize. rewrite Hs. cbv zeta.
  destruct self as [tr0 cmd ar bu to dp h mc es]. simpl in *.
  destruct Htr as [[H ->] | (H & Hb & ->)].
  - by rewrite H.
  - apply py_eq_str_true in H as ->. simpl. by rewrite Hb.
Qed.

(** X12: entering and leaving the context manager is a round trip.  On a
    client that has not been initialized, with a "stdio" transport (or "sse"
    with a base URL) and collaborators that answer, [__aenter__] opens the
    transport, then a session on it, then performs the handshake, and keeps
    the session; [__aexit__] then releases the session before the transport
    and leaves the client exactly as it was before [__aenter__]. *)
Theorem X12_context_manager_round_trip co w self tr :
  _exit_stack self = None -> _mcp_client self = None ->
  (py_eq_str (transport self) "stdio" = true /\
   tr = StdioTransport (command self) (args self)
          (<["PATH" := default EmptyString (environ w "PATH")]> ∅)) \/
  (py_eq_str (transport self) "sse" = true /\ truthy (base_url self) = true /\
   tr = SseTransport (base_url self) (headers self)
          DEFAULT_HTTP_TIMEOUT DEFAULT_SSE_READ_TIMEOUT) ->
  enter co tr = None -> enter co (Session tr) = None ->
  initialize co (Session tr) = None ->
  exists self1,
    __aenter__ co w self
    = ([Open tr; Open (Session tr); Handshake (Session tr)], self1, Ok tt) /\
    _mcp_client self1 = Some (Session tr) /\
    _exit_stack self1 = Some [Session tr; tr] /\
    (returns (exit co tr None) = true ->
     returns (exit co (Session tr) None) = true ->
     __aexit__ co self1 = ([Release (Session tr); Release tr], self, Ok tt)).
Proof.
  intros Hs Hm Htr H1 H2 H3. unfold __aenter__, __aexit__.
  rewrite (initialize_fresh_open _ _ _ _ Hs Htr).
  unfold open_session. rewrite H1, H2, H3.
  eexists. split; [reflexivity|]. split; [done|]. split; [done|].
  intros E1 E2. unfold close, aclose. simpl.
  destruct (exit co (Session tr) None) as [?|[]]; [done| |];
    (destruct (exit co tr None) as [?|[]]; [done| |]);
    destruct self; simpl in *; by subst.
Qed.

Lemma X12_context_manager_round_trip_witness :
  exists self1,
    __aenter__ obliging homeless_world echo_client
    = ([Open echo_transport; Open (Session echo_transport);
        Handshake (Session echo_transport)], self1, Ok tt) /\
    _mcp_client self1 = Some (Session echo_transport) /\
    _exit_stack self1 = Some [Session echo_transport; echo_transport] /\
    (returns (exit obliging echo_transport None) = true ->
     returns (exit obliging (Session echo_transport) None) = true ->
     __aexit__ obliging self1
     = ([Release (Session echo_transport); Release echo_transport],
        echo_client, Ok tt)).
Proof.
  refine (X12_context_manager_round_trip obliging homeless_world echo_client
            echo_transport eq_refl eq_refl _ eq_refl eq_refl eq_refl).
  left. by split.
Defined.

(** X13: [_initialize] opens at most once.  Whatever a call of
    [_initialize] did, returned or raised, any number of further calls on the
    same client return without raising, attempt nothing and change nothing,
    until [close()]. *)
Theorem X13_initialize_once co w self n :
  let '(t1, self1, r1) := _initialize co w self in
  initialize_again co w n self1 = ([], self1, true).
Proof.
  destruct (_initialize co w self) as [[t1 self1] r1] eqn:E.
  destruct (_exit_stack self) as [st|] eqn:Hs.
  - rewrite (initialize_initialized _ _ _ _ Hs) in E. injection E as <- <- <-.
    by apply initialize_again_initialized with st.
  - destruct (initialize_leaves_stack _ _ _ _ _ _ Hs E) as [[st Hst] _].
    by apply initialize_again_initialized with st.
Qed.

(** X14: nothing that [_initialize] entered is lost.  After a call on a
    client without exit stack, whether it returned or raised on the way, the
    exit stack holds exactly the contexts whose entering returned, the last
    entered first, and the next [close()] releases exactly these, in that
    order. *)
Theorem X14_entered_contexts_are_released co w self t1 self1 r1 :
  _exit_stack self = None ->
  _initialize co w self = (t1, self1, r1) ->
  exists st,
    _exit_stack self1 = Some st /\
    st = rev (List.filter (entered co) (opens t1)) /\
    fst (fst (close co self1)) = map Release st.
Proof.
  intros Hs H.
  assert (exists st, _exit_stack self1 = Some st /\
                     st = rev (List.filter (entered co) (opens t1)))
    as (st & Hst & Heq).
  { unfold _initialize in H. rewrite Hs in H. cbv zeta in H.
    assert (forall tr s0,
              _exit_stack s0 = Some [] ->
              open_session co tr s0 = (t1, self1, r1) ->
              exists st, _exit_stack self1 = Some st /\
                         st = rev (List.filter (entered co) (opens t1))) as Hopen.
    { intros tr s0 Hs0. unfold open_session, push. rewrite Hs0.
      destruct (enter co tr) eqn:E1.
      { intros [= <- <- <-]. exists []. split; [done|].
        simpl. unfold entered. by rewrite E1. }
      destruct (enter co (Session tr)) eqn:E2.
      { intros [= <- <- <-]. exists [tr]. split; [done|].
        simpl. unfold entered. by rewrite E1, E2. }
      destruct (initialize co (Session tr)); intros [= <- <- <-];
        exists [Session tr; tr]; (split; [done|]);
        simpl; unfold entered; by rewrite E1, E2. }
    repeat match type of H with
           | context [if ?b then _ else _] => destruct b
           end;
      try (by eapply Hopen; [|exact H]);
      injection H as <- <- <-; by exists []. }
  exists st. split; [done|]. split; [done|].
  unfold close. rewrite Hst. pose proof (aclose_trace co st) as Ht.
  by destruct (aclose co st) as [t [e|]].
Qed.

Lemma X14_entered_contexts_are_released_witness :
  exists st,
    _exit_stack (push (Session echo_transport)
                   (push echo_transport (set_exit_stack (Some []) echo_client)))
    = Some st /\
    st = rev (List.filter (entered failing_handshake)
                (opens [Open echo_transport; Open (Session echo_transport);
                        Handshake (Session echo_transport)])) /\
    fst (fst (close failing_handshake
                (push (Session echo_transport)
                   (push echo_transport (set_exit_stack (Some []) echo_client)))))
    = map Release st.
Proof.
  exact (X14_entered_contexts_are_released failing_handshake homeless_world
           echo_client
           [Open echo_transport; Open (Session echo_transport);
            Handshake (Session echo_transport)]
           (push (Session echo_transport)
              (push echo_transport (set_exit_stack (Some []) echo_client)))
           (Err (Raise ForeignError "handshake failed")) eq_refl eq_refl).
Defined.

(** X15: [close()] releases every context on the stack, the last entered
    first, also when one of them raises.  When none raises the exit stack
    and the session are reset to None.  Whenever [close()] raises, the two
    resets are skipped: the client keeps its session, has an empty exit
    stack and still counts as initialized, so that [_initialize] re-opens
    nothing; and [close()] does raise when the exit of a context raises and
    no context released after it suppresses the exception. *)
Theorem X15_close_releases_everything co w self st :
  _exit_stack self = Some st ->
  fst (fst (close co self)) = map Release st /\
  ((forall x, In x st -> returns (exit co x None) = true) ->
   close co self
   = (map Release st, set_mcp_client None (set_exit_stack None self), Ok tt)) /\
  (forall t1 self1 e,
     close co self = (t1, self1, Err e) ->
     self1 = set_exit_stack (Some []) self /\
     _mcp_client self1 = _mcp_client self /\
     _initialize co w self1 = ([], self1, Ok tt)) /\
  (forall front x back,
     st = front ++ x :: back ->
     (forall p, returns (exit co x p) = false) ->
     (forall y p, In y back -> exit co y p <> Returns true) ->
     exists e,
       close co self = (map Release st, set_exit_stack (Some []) self, Err e)).
Proof.
  intros Hs. unfold close. rewrite Hs.
  pose proof (aclose_trace co st) as Ht.
  split; [|split; [|split]].
  - by destruct (aclose co st) as [t [e|]].
  - intros Hok. pose proof (aclose_ok co st Hok) as Hr.
    destruct (aclose co st) as [t [e|]]; simpl in *; [done|]. by subst.
  - intros t1 self1 e.
    destruct (aclose co st) as [t [e'|]]; [|done].
    by intros [= <- <- <-].
  - intros front x back -> Hx Hback.
    destruct (aclose_err co front x back Hx Hback) as [e He].
    destruct (aclose co (front ++ x :: back)) as [t [e'|]]; simpl in *; [|done].
    exists e'. by subst.
Qed.

Lemma X15_close_releases_everything_witness :
  exists e,
    close failing_exit
      (set_mcp_client (Some (Session echo_transport))
         (set_exit_stack (Some [Session echo_transport; echo_transport]) echo_client))
    = (map Release ([] ++ Session echo_transport :: [echo_transport]),
       set_exit_stack (Some [])
         (set_mcp_client (Some (Session echo_transport))
            (set_exit_stack (Some [Session echo_transport; echo_transport])
               echo_client)),
       Err e).
Proof.
  refine (proj2 (proj2 (proj2
    (X15_close_releases_everything failing_exit homeless_world
       (set_mcp_client (Some (Session echo_transport))
          (set_exit_stack (Some [Session echo_transport; echo_transport])
             echo_client))
       ([] ++ Session echo_transport :: [echo_transport]) eq_refl)))
    [] (Session echo_transport) [echo_transport] eq_refl _ _).
  - intros p. reflexivity.
  - intros y p [<- | []]. discriminate.
Defined.

(** A transport whose exit suppresses the exception of the session: every
    context is released, [close()] returns and the state is reset. *)
Example close_with_suppressing_transport :
  close suppressing_exit
    (set_mcp_client (Some (Session echo_transport))
       (set_exit_stack (Some [Session echo_transport; echo_transport]) echo_client))
  = ([Release (Session echo_transport); Release echo_transport],
     echo_client, Ok tt).
Proof. reflexivity. Qed.

(** ** Operations *)

Lemma call_tool_initialized co ad w self st session name arguments :
  _exit_stack self = Some st -> _mcp_client self = Some session ->
  call_tool co ad w self name arguments
  = ([], self, session_call_tool ad session name arguments).
Proof.
  intros Hs Hm. unfold call_tool.
  by rewrite (initialize_initialized _ _ _ _ Hs), Hm.
Qed.

(** X16: the session is opened by the first operation, not by the
    constructor, and only by the first.  On a client that has not been
    initialized, with collaborators that answer, [call_tool] opens the
    transport and the session, performs the handshake and returns what the
    session's [call_tool] returns; a second operation on the same client
    ([call_tool], [list_tools] or [get_prompt]) opens nothing and goes to the
    same session. *)
Theorem X16_first_operation_opens co ad w self tr name arguments :
  _exit_stack self = None ->
  (py_eq_str (transport self) "stdio" = true /\
   tr = StdioTransport (command self) (args self)
          (<["PATH" := default EmptyString (environ w "PATH")]> ∅)) \/
  (py_eq_str (transport self) "sse" = true /\ truthy (base_url self) = true /\
   tr = SseTransport (base_url self) (headers self)
          DEFAULT_HTTP_TIMEOUT DEFAULT_SSE_READ_TIMEOUT) ->
  enter co tr = None -> enter co (Session tr) = None ->
  initialize co (Session tr) = None ->
  exists self1,
    call_tool co ad w self name arguments
    = ([Open tr; Open (Session tr); Handshake (Session tr)], self1,
       session_call_tool ad (Session tr) name arguments) /\
    (forall name' arguments',
       call_tool co ad w self1 name' arguments'
       = ([], self1, session_call_tool ad (Session tr) name' arguments')) /\
    list_tools co ad w self1 = ([], self1, load_mcp_tools ad (Some (Session tr))) /\
    (forall prompt_name arguments',
       get_prompt co ad w self1 prompt_name arguments'
       = ([], self1, load_mcp_prompt ad (Some (Session tr)) prompt_name arguments')).
Proof.
  intros Hs Htr H1 H2 H3.
  pose proof (initialize_fresh_open co _ _ _ Hs Htr) as Hi.
  unfold open_session in Hi. rewrite H1, H2, H3 in Hi.
  eexists. split; [|split; [|split]].
  - unfold call_tool. rewrite Hi. reflexivity.
  - intros name' arguments'. by eapply call_tool_initialized.
  - unfold list_tools. by erewrite initialize_initialized.
  - intros prompt_name arguments'. unfold get_prompt.
    by erewrite initialize_initialized.
Qed.

Lemma X16_first_operation_opens_witness :
  exists self1,
    call_tool obliging echo_adapters homeless_world echo_client "add" (PDict ∅)
    = ([Open echo_transport; Open (Session echo_transport);
        Handshake (Session echo_transport)], self1,
       session_call_tool echo_adapters (Session echo_transport) "add" (PDict ∅)) /\
    (forall name' arguments',
       call_tool obliging echo_adapters homeless_world self1 name' arguments'
       = ([], self1,
          session_call_tool echo_adapters (Session echo_transport) name' arguments')) /\
    list_tools obliging echo_adapters homeless_world self1
    = ([], self1, load_mcp_tools echo_adapters (Some (Session echo_transport))) /\
    (forall prompt_name arguments',
       get_prompt obliging echo_adapters homeless_world self1 prompt_name arguments'
       = ([], self1,
          load_mcp_prompt echo_adapters (Some (Session echo_transport))
            prompt_name arguments')).
Proof.
  refine (X16_first_operation_opens obliging echo_adapters homeless_world
            echo_client echo_transport "add" (PDict ∅) eq_refl _
            eq_refl eq_refl eq_refl).
  left. by split.
Defined.

(** X17: an operation whose initialization raises passes the exception on
    and forwards nothing; but the operations after it, on the same client,
    no longer initialize: [call_tool] raises AttributeError (the session is
    None) and [list_tools] and [get_prompt] hand None to the adapter, without
    any attempt to open a transport. *)
Theorem X17_operation_after_failed_initialize co ad w self t1 self1 e :
  _exit_stack self = None -> _mcp_client self = None ->
  _initialize co w self = (t1, self1, Err e) ->
  (forall name arguments,
     call_tool co ad w self name arguments = (t1, self1, Err e) /\
     call_tool co ad w self1 name arguments
     = ([], self1, Err (Raise AttributeError EmptyString))) /\
  list_tools co ad w self = (t1, self1, Err e) /\
  list_tools co ad w self1 = ([], self1, load_mcp_tools ad None) /\
  (forall prompt_name arguments,
     get_prompt co ad w self prompt_name arguments = (t1, self1, Err e) /\
     get_prompt co ad w self1 prompt_name arguments
     = ([], self1, load_mcp_prompt ad None prompt_name arguments)).
Proof.
  intros Hs Hm H.
  destruct (initialize_leaves_stack _ _ _ _ _ _ Hs H) as [[st Hst] Hc].
  pose proof (Hc e eq_refl) as Hm1. rewrite Hm in Hm1.
  pose proof (initialize_initialized co w _ _ Hst) as Hi.
  unfold call_tool, list_tools, get_prompt. rewrite H, Hi, Hm1.
  by repeat split.
Qed.

Lemma X17_operation_after_failed_initialize_witness :
  list_tools obliging echo_adapters sample_world
    (set_exit_stack (Some []) (fresh_client (PStr "http") PNone))
  = ([], set_exit_stack (Some []) (fresh_client (PStr "http") PNone),
     load_mcp_tools echo_adapters None).
Proof.
  exact (proj1 (proj2 (proj2
    (X17_operation_after_failed_initialize obliging echo_adapters sample_world
       (fresh_client (PStr "http") PNone) []
       (set_exit_stack (Some []) (fresh_client (PStr "http") PNone))
       (Raise ValueError
          "HTTP transport is not supported by the official MCP library. Use 'sse' instead.")
       eq_refl eq_refl eq_refl)))).
Defined.

(** X18: what [_initialize] opens a transport with.  A stdio transport gets
    the command and the args of the client and an environment with the single
    variable PATH, inherited or empty; an sse transport gets the base URL
    (never an empty one) and the headers of the client, and the fixed
    timeouts of 5 and 300 seconds. *)
Theorem X18_transport_parameters co w self t1 self1 r1 :
  _initialize co w self = (t1, self1, r1) ->
  (forall c a env,
     In (Open (StdioTransport c a env)) t1 ->
     c = command self /\ a = args self /\
     env = <["PATH" := default EmptyString (environ w "PATH")]> ∅ /\
     dom env = {["PATH"]}) /\
  (forall url h t_connect t_read,
     In (Open (SseTransport url h t_connect t_read)) t1 ->
     url = base_url self /\ truthy url = true /\ h = headers self /\
     t_connect = 5%Z /\ t_read = 300%Z).
Proof.
  intros H.
  assert (forall tr s0,
            open_session co tr s0 = (t1, self1, r1) ->
            forall x, In (Open x) t1 -> x = tr \/ x = Session tr) as Hopen.
  { intros tr s0. unfold open_session.
    destruct (enter co tr); [|destruct (enter co (Session tr));
                               [|destruct (initialize co (Session tr))]];
      intros [= <- <- <-] x Hx; simpl in Hx;
      repeat (destruct Hx as [Hx|Hx];
              [first [discriminate | injection Hx as <-; auto]|]);
      done. }
  unfold _initialize in H.
  destruct self as [tr0 cmd ar bu to dp h0 mc es]. simpl in *.
  destruct es; [injection H as <- <- <-; by split|].
  destruct (py_eq_str tr0 "stdio").
  { split; intros * Hin; destruct (Hopen _ _ H _ Hin) as [E|E];
      try discriminate.
    injection E as -> -> ->. repeat split; try done.
    all: by rewrite dom_insert_L, dom_empty_L, (right_id_L ∅ (∪)). }
  destruct (py_eq_str tr0 "sse").
  { destruct (truthy bu) eqn:Tb; simpl in H.
    - split; intros * Hin; destruct (Hopen _ _ H _ Hin) as [E|E];
        try discriminate.
      by injection E as -> -> -> ->.
    - injection H as <- <- <-. by split. }
  destruct (py_eq_str tr0 "http"); injection H as <- <- <-; by split.
Qed.

Lemma X18_transport_parameters_witness :
  PStr "echo" = command echo_client /\ PList [PStr "hi"] = args echo_client /\
  (<["PATH" := EmptyString]> ∅ : gmap string string)
  = <["PATH" := default EmptyString (environ homeless_world "PATH")]> ∅ /\
  dom (<["PATH" := EmptyString]> ∅ : gmap string string) = {["PATH"]}.
Proof.
  refine (proj1
    (X18_transport_parameters obliging homeless_world echo_client
       [Open echo_transport; Open (Session echo_transport);
        Handshake (Session echo_transport)]
       (set_mcp_client (Some (Session echo_transport))
          (push (Session echo_transport)
             (push echo_transport (set_exit_stack (Some []) echo_client))))
       (Ok tt) eq_refl)
    (PStr "echo") (PList [PStr "hi"]) (<["PATH" := EmptyString]> ∅) _).
  by left.
Defined.

(** X19: the timeout and the default parameters a client was configured
    with play no part in opening the session: two clients that differ only
    in these fields make [_initialize] attempt the same things with the same
    outcome. *)
Theorem X19_timeout_not_used co w self to dp :
  let self' :=
    {| transport := transport self; command := command self; args := args self;
       base_url := base_url self; timeout := to; default_parameters := dp;
       headers := headers self; _mcp_client := _mcp_client self;
       _exit_stack := _exit_stack self |} in
  fst (fst (_initialize co w self')) = fst (fst (_initialize co w self)) /\
  snd (_initialize co w self') = snd (_initialize co w self).
Proof.
  destruct self as [tr0 cmd ar bu to0 dp0 h0 mc es]. simpl.
  unfold _initialize, open_session. simpl.
  by repeat case_match.
Qed.

(** ** From the file to the open session *)

(** X20: end to end for a stdio entry.  The client [from_config] builds from
    a stdio entry, without overrides, starts on its first initialization the
    command of the file with the args of the file and the single environment
    variable PATH, opens a session on it and keeps it. *)
Theorem X20_stdio_entry_end_to_end
    w alias config_path t found d servers entry label cmd l co w' :
  alias <> EmptyString ->
  _find_config_file w config_path = (t, Ok (Some found)) ->
  load w found = Loaded (PDict d) ->
  d !! "servers" = Some (PDict servers) ->
  servers !! alias = Some (PDict entry) ->
  entry !! "transport" = Some (PStr label) -> lower label = "stdio" ->
  entry !! "command" = Some (PStr cmd) -> cmd <> EmptyString ->
  entry !! "args" = Some (PList l) ->
  let tr := StdioTransport (PStr cmd) (PList l)
              (<["PATH" := default EmptyString (environ w' "PATH")]> ∅) in
  enter co tr = None -> enter co (Session tr) = None ->
  initialize co (Session tr) = None ->
  exists t' c c1,
    from_config w (Some alias) config_path ∅ = ((t ++ [FsLoad found]) ++ t', Ok c) /\
    _initialize co w' c
    = ([Open tr; Open (Session tr); Handshake (Session tr)], c1, Ok tt) /\
    _mcp_client c1 = Some (Session tr) /\
    _exit_stack c1 = Some [Session tr; tr].
Proof.
  intros Ha Hf Hl Hs He Hlab Hlow Hc Hne Hargs tr H1 H2 H3.
  destruct (entry_loads w alias config_path t found d servers entry
              Ha Hf Hl Hs He "stdio" PNone)
    as (t' & c & E & Ht & _ & Hcmd & Har & _ & Hst).
  { by rewrite (transport_of_label _ _ Hlab), Hlow. }
  { unfold check_transport. rewrite Hc, Hargs. by destruct cmd. }
  { done. }
  assert (args c = PList l) as Har' by (rewrite Har, Hargs; by destruct l).
  assert (command c = PStr cmd) as Hcmd' by (by rewrite Hcmd, Hc).
  assert (_initialize co w' c = open_session co tr (set_exit_stack (Some []) c))
    as Hi.
  { apply (initialize_fresh_open co w' c tr Hst).
    left. rewrite Ht, Hcmd', Har'. by split. }
  unfold open_session in Hi. rewrite H1, H2, H3 in Hi.
  eexists t', c, _. split; [exact E|]. split; [exact Hi|]. by split.
Qed.

Lemma X20_stdio_entry_end_to_end_witness :
  exists t' c c1,
    from_config (world_with (Loaded (PDict stdio_file))) (Some "a")
                (Some "/etc/mcp/mcp.json") ∅
    = ((located ++ [FsLoad "/etc/mcp/mcp.json"]) ++ t', Ok c) /\
    _initialize obliging homeless_world c
    = ([Open echo_transport; Open (Session echo_transport);
        Handshake (Session echo_transport)], c1, Ok tt) /\
    _mcp_client c1 = Some (Session echo_transport) /\
    _exit_stack c1 = Some [Session echo_transport; echo_transport].
Proof.
  refine (X20_stdio_entry_end_to_end (world_with (Loaded (PDict stdio_file))) "a"
            (Some "/etc/mcp/mcp.json") located "/etc/mcp/mcp.json"
            stdio_file stdio_servers stdio_entry "STDIO" "echo" [PStr "hi"]
            obliging homeless_world _ eq_refl eq_refl eq_refl eq_refl
            eq_refl eq_refl eq_refl _ eq_refl eq_refl eq_refl eq_refl);
    discriminate.
Defined.
